(** * Syncthing: configuration wrapper, application lifecycle and model dispatch

    A shallow embedding of the parts of the synchronisation engine that the
    specification's testable claims are about:

    - [protocol]: device identities and their short form;
    - [config]: the configuration wrapper of [lib/config/wrapper.go], with its
      verify-then-commit subscription protocol;
    - [syncthing]: the application object ([App]) with its start-up sequence,
      the short-ID check and the stop latch;
    - [model]: the dispatch rules of the model (introducer, auto-accept,
      request validation, mod-time window).

    Mutexes only serialise the methods below, so every method is a function
    from the state before the call to the state after it. *)

From stdpp Require Import gmap strings list fin_maps.
From Stdlib Require Import ZArith Lia Ascii.

Local Open Scope Z_scope.

(** ** Results of fallible calls *)

Definition error := string.

Inductive result (A : Type) : Type :=
| Ok (a : A)
| Err (e : error).
Arguments Ok {A} a.
Arguments Err {A} e.

(** A call either returns or panics, which ends the process. *)
Inductive outcome (A : Type) : Type :=
| Returns (a : A)
| Panics (msg : string).
Arguments Returns {A} a.
Arguments Panics {A} msg.

(** ** protocol: device identities *)

Module protocol.

(** [type DeviceID [32]byte]: the bytes, most significant first. *)
Definition DeviceID := list Z.

Definition ShortID := Z.

Definition wf_byte (b : Z) : Prop := 0 <= b < 256.

Definition wf_DeviceID (d : DeviceID) : Prop :=
  length d = 32%nat /\ Forall wf_byte d.

(** [binary.BigEndian.Uint64]: the big-endian value of a byte string. *)
Definition BigEndian (bs : list Z) : Z :=
  foldl (fun acc b => acc * 256 + b) 0 bs.

(** Modelled from the spec: [DeviceID.Short] is not among the sources; a
    ShortID is the first 8 bytes of the DeviceID reinterpreted as a 64-bit
    integer. *)
Definition Short (d : DeviceID) : ShortID := BigEndian (take 8 d).

(** [LocalDeviceID]-style constant used as "no introducer". *)
Definition EmptyDeviceID : DeviceID := replicate 32 0.

(** The messages of a cluster configuration, with the fields the model
    tests fill in ([protocol.ClusterConfig], [protocol.Folder],
    [protocol.Device]). *)
Record Device := mkPDevice {
  pd_ID : DeviceID;
  pd_Name : string;
  pd_Introducer : bool;
  pd_SkipIntroductionRemovals : bool
}.

Record Folder := mkPFolder {
  pf_ID : string;
  pf_Label : string;
  pf_Devices : list Device
}.

Record ClusterConfig := mkClusterConfig {
  cc_Folders : list Folder
}.

(** [type Counter struct] and [type Vector struct]: the counters of a
    version vector, sorted by ID. *)
Definition Counter := (ShortID * Z)%type.
Definition Vector := list Counter.

(** Modelled from the spec: [Vector.Update] is not among the sources;
    [update(s)] bumps the counter of [s] or inserts it, and the vector stays
    sorted by short ID.  A counter that is inserted starts at 1. *)
Fixpoint Update (v : Vector) (s : ShortID) : Vector :=
  match v with
  | [] => [(s, 1)]
  | (id, c) :: v' =>
      if id =? s then (id, c + 1) :: v'
      else if s <? id then (s, 1) :: v
      else (id, c) :: Update v' s
  end.

End protocol.

(** ** config: the wrapper around a Configuration *)

Module config.
Import protocol.

(** The configuration records.  Their declarations are in parts of the
    package that are not among the sources; the fields are the ones the
    wrapper, the application and the model tests read or write. *)

Record ObservedFolder := mkObservedFolder {
  of_Time : Z;
  of_ID : string;
  of_Label : string
}.

Record ObservedDevice := mkObservedDevice {
  od_Time : Z;
  od_ID : DeviceID;
  od_Name : string;
  od_Address : string
}.

Record FolderDeviceConfiguration := mkFolderDevice {
  fd_DeviceID : DeviceID;
  fd_IntroducedBy : DeviceID
}.

Record DeviceConfiguration := mkDevice {
  dev_DeviceID : DeviceID;
  dev_Name : string;
  dev_Addresses : list string;
  dev_Introducer : bool;
  dev_SkipIntroductionRemovals : bool;
  dev_IntroducedBy : DeviceID;
  dev_Paused : bool;
  dev_AutoAcceptFolders : bool;
  dev_MaxRequestKiB : Z;
  dev_PendingFolders : list ObservedFolder
}.

Record FolderConfiguration := mkFolder {
  fld_ID : string;
  fld_Label : string;
  fld_Path : string;
  fld_Devices : list FolderDeviceConfiguration;
  fld_Paused : bool;
  fld_MaxConflicts : Z;
  fld_RawModTimeWindowS : Z
}.

Record OptionsConfiguration := mkOptions {
  opt_ListenAddresses : list string;
  opt_GlobalAnnServers : list string;
  opt_StunServers : list string;
  opt_DefaultFolderPath : string;
  opt_GlobalAnnEnabled : bool;
  opt_LocalAnnEnabled : bool;
  opt_URAccepted : Z;
  opt_URUniqueID : string;
  opt_SetLowPriority : bool
}.

Definition set_opt_URAccepted (o : OptionsConfiguration) v :=
  mkOptions (opt_ListenAddresses o) (opt_GlobalAnnServers o)
    (opt_StunServers o) (opt_DefaultFolderPath o) (opt_GlobalAnnEnabled o)
    (opt_LocalAnnEnabled o) v (opt_URUniqueID o) (opt_SetLowPriority o).
Definition set_opt_URUniqueID (o : OptionsConfiguration) v :=
  mkOptions (opt_ListenAddresses o) (opt_GlobalAnnServers o)
    (opt_StunServers o) (opt_DefaultFolderPath o) (opt_GlobalAnnEnabled o)
    (opt_LocalAnnEnabled o) (opt_URAccepted o) v (opt_SetLowPriority o).

Record GUIConfiguration := mkGUI {
  gui_Enabled : bool;
  gui_InsecureAdminAccess : bool
}.

Record Configuration := mkConfiguration {
  cfg_Folders : list FolderConfiguration;
  cfg_Devices : list DeviceConfiguration;
  cfg_GUI : GUIConfiguration;
  cfg_Options : OptionsConfiguration;
  cfg_IgnoredDevices : list ObservedDevice;
  cfg_PendingDevices : list ObservedDevice;
  cfg_MyID : DeviceID
}.

Definition set_cfg_Folders (c : Configuration) fs :=
  mkConfiguration fs (cfg_Devices c) (cfg_GUI c) (cfg_Options c)
    (cfg_IgnoredDevices c) (cfg_PendingDevices c) (cfg_MyID c).
Definition set_cfg_Devices (c : Configuration) ds :=
  mkConfiguration (cfg_Folders c) ds (cfg_GUI c) (cfg_Options c)
    (cfg_IgnoredDevices c) (cfg_PendingDevices c) (cfg_MyID c).
Definition set_cfg_GUI (c : Configuration) g :=
  mkConfiguration (cfg_Folders c) (cfg_Devices c) g (cfg_Options c)
    (cfg_IgnoredDevices c) (cfg_PendingDevices c) (cfg_MyID c).
Definition set_cfg_Options (c : Configuration) o :=
  mkConfiguration (cfg_Folders c) (cfg_Devices c) (cfg_GUI c) o
    (cfg_IgnoredDevices c) (cfg_PendingDevices c) (cfg_MyID c).
Definition set_cfg_PendingDevices (c : Configuration) ps :=
  mkConfiguration (cfg_Folders c) (cfg_Devices c) (cfg_GUI c) (cfg_Options c)
    (cfg_IgnoredDevices c) ps (cfg_MyID c).

Definition set_dev_PendingFolders (d : DeviceConfiguration) pfs :=
  mkDevice (dev_DeviceID d) (dev_Name d) (dev_Addresses d) (dev_Introducer d)
    (dev_SkipIntroductionRemovals d) (dev_IntroducedBy d) (dev_Paused d)
    (dev_AutoAcceptFolders d) (dev_MaxRequestKiB d) pfs.

Definition set_fld_Devices (f : FolderConfiguration) ds :=
  mkFolder (fld_ID f) (fld_Label f) (fld_Path f) ds (fld_Paused f)
    (fld_MaxConflicts f) (fld_RawModTimeWindowS f).

(** [type Committer interface].  Two interface values are the same
    subscriber when they are the same object; [com_id] stands for the
    object's identity.  [VerifyConfiguration] answers [None] for a nil
    error. *)
Record Committer := mkCommitter {
  com_id : nat;
  VerifyConfiguration : Configuration -> Configuration -> option error;
  CommitConfiguration : Configuration -> Configuration -> bool
}.

(** [type Waiter interface]: either the no-op waiter or the wait group of
    the commit goroutines. *)
Inductive Waiter :=
| noopWaiter
| waitGroup (n : nat).

(** Calls made on subscribers, in the order they are made. *)
Inductive call :=
| Verified (c : nat) (from to : Configuration)
| Committed (c : nat) (from to : Configuration).

Definition is_Committed (ev : call) : bool :=
  match ev with Committed _ _ _ => true | Verified _ _ _ => false end.

(** [type wrapper struct].  [calls] is a ghost field: the subscriber calls
    made so far. *)
Record wrapper := mkWrapper {
  cfg : Configuration;
  path : string;
  deviceMap : option (gmap DeviceID DeviceConfiguration);
  folderMap : option (gmap string FolderConfiguration);
  subs : list Committer;
  requiresRestart : Z;
  calls : list call
}.

Definition set_cfg (w : wrapper) c :=
  mkWrapper c (path w) (deviceMap w) (folderMap w) (subs w)
    (requiresRestart w) (calls w).
Definition set_subs (w : wrapper) ss :=
  mkWrapper (cfg w) (path w) (deviceMap w) (folderMap w) ss
    (requiresRestart w) (calls w).
Definition add_calls (w : wrapper) evs :=
  mkWrapper (cfg w) (path w) (deviceMap w) (folderMap w) (subs w)
    (requiresRestart w) (calls w ++ evs).

(** [func Wrap(path string, cfg Configuration) Wrapper] *)
Definition Wrap (p : string) (c : Configuration) : wrapper :=
  mkWrapper c p None None [] 0 [].

(** [func (w *wrapper) Subscribe(c Committer)] *)
Definition Subscribe (w : wrapper) (c : Committer) : wrapper :=
  set_subs w (subs w ++ [c]).

(** The loop of [Unsubscribe]: drop the first occurrence of the
    subscriber. *)
Fixpoint unsubscribe (ss : list Committer) (c : Committer) : list Committer :=
  match ss with
  | [] => []
  | s :: ss' =>
      if decide (com_id s = com_id c) then ss' else s :: unsubscribe ss' c
  end.

(** [func (w *wrapper) Unsubscribe(c Committer)] *)
Definition Unsubscribe (w : wrapper) (c : Committer) : wrapper :=
  set_subs w (unsubscribe (subs w) c).

(** [func (w *wrapper) RawCopy() Configuration] *)
Definition RawCopy (w : wrapper) : Configuration := cfg w.

(** [func (w *wrapper) RequiresRestart() bool] *)
Definition RequiresRestart (w : wrapper) : bool :=
  negb (requiresRestart w =? 0).

(** [func (w *wrapper) setRequiresRestart()] *)
Definition setRequiresRestart (w : wrapper) : wrapper :=
  mkWrapper (cfg w) (path w) (deviceMap w) (folderMap w) (subs w) 1 (calls w).

(** [func (w *wrapper) notifyListener(sub Committer, from, to Configuration)] *)
Definition notifyListener (w : wrapper) (sub : Committer)
    (from to : Configuration) : wrapper :=
  let w := add_calls w [Committed (com_id sub) from to] in
  if negb (CommitConfiguration sub from to) then setRequiresRestart w else w.

(** [func (w *wrapper) notifyListeners(from, to Configuration) Waiter].
    Every subscriber is notified from a goroutine of its own; the state
    given here is the one reached when the returned wait group is done.
    The only field the goroutines write is the restart flag, which they
    can only set, so the order in which they run does not show. *)
Definition notifyListeners (w : wrapper) (from to : Configuration)
    : wrapper * Waiter :=
  (foldl (fun w sub => notifyListener w sub from to) w (subs w),
   waitGroup (length (subs w))).

(** The verification loop of [replaceLocked]: ask the subscribers in
    order and stop at the first rejection. *)
Fixpoint verifySubs (ss : list Committer) (from to : Configuration)
    : list call * option error :=
  match ss with
  | [] => ([], None)
  | sub :: ss' =>
      match VerifyConfiguration sub from to with
      | Some err => ([Verified (com_id sub) from to], Some err)
      | None =>
          let '(evs, r) := verifySubs ss' from to in
          (Verified (com_id sub) from to :: evs, r)
      end
  end.

(** [func (w *wrapper) Device(id protocol.DeviceID) (DeviceConfiguration, bool)] *)
Definition Device (w : wrapper) (id : DeviceID) : option DeviceConfiguration :=
  List.find (fun d => bool_decide (dev_DeviceID d = id)) (cfg_Devices (cfg w)).

(** [func (w *wrapper) Folder(id string) (FolderConfiguration, bool)] *)
Definition Folder (w : wrapper) (id : string) : option FolderConfiguration :=
  List.find (fun f => bool_decide (fld_ID f = id)) (cfg_Folders (cfg w)).

(** [func (w *wrapper) Options() OptionsConfiguration] *)
Definition Options (w : wrapper) : OptionsConfiguration := cfg_Options (cfg w).

(** [func (w *wrapper) GUI() GUIConfiguration] *)
Definition GUI (w : wrapper) : GUIConfiguration := cfg_GUI (cfg w).

(** [func (w *wrapper) FolderList() []FolderConfiguration] *)
Definition FolderList (w : wrapper) : list FolderConfiguration :=
  cfg_Folders (cfg w).

(** [func (w *wrapper) Devices() map[protocol.DeviceID]DeviceConfiguration]:
    the map is built on first use and kept until the next replacement. *)
Definition Devices (w : wrapper)
    : wrapper * gmap DeviceID DeviceConfiguration :=
  match deviceMap w with
  | Some m => (w, m)
  | None =>
      let m := foldl (fun m dev => <[dev_DeviceID dev := dev]> m) ∅
                 (cfg_Devices (cfg w)) in
      (mkWrapper (cfg w) (path w) (Some m) (folderMap w) (subs w)
         (requiresRestart w) (calls w), m)
  end.

(** [func (w *wrapper) Folders() map[string]FolderConfiguration] *)
Definition Folders (w : wrapper)
    : wrapper * gmap string FolderConfiguration :=
  match folderMap w with
  | Some m => (w, m)
  | None =>
      let m := foldl (fun m f => <[fld_ID f := f]> m) ∅
                 (cfg_Folders (cfg w)) in
      (mkWrapper (cfg w) (path w) (deviceMap w) (Some m) (subs w)
         (requiresRestart w) (calls w), m)
  end.

(** The inner loop of [SetDevices]: overwrite the first device with the
    same ID, [None] when there is none. *)
Fixpoint replaceDevice (ds : list DeviceConfiguration)
    (d : DeviceConfiguration) : option (list DeviceConfiguration) :=
  match ds with
  | [] => None
  | x :: xs =>
      if decide (dev_DeviceID x = dev_DeviceID d) then Some (d :: xs)
      else cons x <$> replaceDevice xs d
  end.

(** One round of the outer loop of [SetDevices]. *)
Definition setDevice1 (ds : list DeviceConfiguration)
    (d : DeviceConfiguration) : list DeviceConfiguration :=
  match replaceDevice ds d with
  | Some ds' => ds'
  | None => ds ++ [d]
  end.

(** The loop of [RemoveDevice]: cut out the first device with the ID. *)
Fixpoint removeDevice (ds : list DeviceConfiguration) (id : DeviceID)
    : option (list DeviceConfiguration) :=
  match ds with
  | [] => None
  | x :: xs =>
      if decide (dev_DeviceID x = id) then Some xs
      else cons x <$> removeDevice xs id
  end.

(** The loop of [SetFolder]. *)
Fixpoint replaceFolder (fs : list FolderConfiguration)
    (fld : FolderConfiguration) : option (list FolderConfiguration) :=
  match fs with
  | [] => None
  | x :: xs =>
      if decide (fld_ID x = fld_ID fld) then Some (fld :: xs)
      else cons x <$> replaceFolder xs fld
  end.

(** [func (w *wrapper) AddOrUpdatePendingDevice(device protocol.DeviceID, name, address string)].
    [now] is [time.Now().Round(time.Second)]. *)
Fixpoint updatePendingDevice (ps : list ObservedDevice) (now : Z)
    (device : DeviceID) (name address : string) : option (list ObservedDevice) :=
  match ps with
  | [] => None
  | p :: ps' =>
      if decide (od_ID p = device)
      then Some (mkObservedDevice now (od_ID p) name address :: ps')
      else cons p <$> updatePendingDevice ps' now device name address
  end.

Definition AddOrUpdatePendingDevice (w : wrapper) (now : Z)
    (device : DeviceID) (name address : string) : wrapper :=
  let ps := cfg_PendingDevices (cfg w) in
  match updatePendingDevice ps now device name address with
  | Some ps' => set_cfg w (set_cfg_PendingDevices (cfg w) ps')
  | None =>
      set_cfg w (set_cfg_PendingDevices (cfg w)
                   (ps ++ [mkObservedDevice now device name address]))
  end.

(** The inner loop of [AddOrUpdatePendingFolder], over the pending folders
    of the device found: relabel the first entry with the ID. *)
Fixpoint updatePendingFolder (pfs : list ObservedFolder) (now : Z)
    (id label : string) : option (list ObservedFolder) :=
  match pfs with
  | [] => None
  | f :: pfs' =>
      if decide (of_ID f = id)
      then Some (mkObservedFolder now (of_ID f) label :: pfs')
      else cons f <$> updatePendingFolder pfs' now id label
  end.

(** The body of the outer loop for the device found. *)
Definition addOrUpdatePendingFolder (d : DeviceConfiguration) (now : Z)
    (id label : string) : DeviceConfiguration :=
  match updatePendingFolder (dev_PendingFolders d) now id label with
  | Some pfs => set_dev_PendingFolders d pfs
  | None =>
      set_dev_PendingFolders d
        (dev_PendingFolders d ++ [mkObservedFolder now id label])
  end.

(** The outer loop, over the devices: [None] when it runs off the end. *)
Fixpoint pendingFolderDevices (ds : list DeviceConfiguration) (now : Z)
    (id label : string) (device : DeviceID)
    : option (list DeviceConfiguration) :=
  match ds with
  | [] => None
  | d :: ds' =>
      if decide (dev_DeviceID d = device)
      then Some (addOrUpdatePendingFolder d now id label :: ds')
      else cons d <$> pendingFolderDevices ds' now id label device
  end.

(** [func (w *wrapper) AddOrUpdatePendingFolder(id, label string, device protocol.DeviceID)] *)
Definition AddOrUpdatePendingFolder (w : wrapper) (now : Z)
    (id label : string) (device : DeviceID) : outcome wrapper :=
  match pendingFolderDevices (cfg_Devices (cfg w)) now id label device with
  | Some ds => Returns (set_cfg w (set_cfg_Devices (cfg w) ds))
  | None => Panics "bug: adding pending folder for non-existing device"
  end.

Section Wrapper.

(** [func (cfg *Configuration) clean() error] is not among the sources:
    it either fails or leaves its receiver cleaned. *)
Variable clean : Configuration -> result Configuration.

(** [func (w *wrapper) replaceLocked(to Configuration) (Waiter, error)] *)
Definition replaceLocked (w : wrapper) (to : Configuration)
    : wrapper * result Waiter :=
  let from := cfg w in
  match clean to with
  | Err err => (w, Err err)
  | Ok to =>
      match verifySubs (subs w) from to with
      | (evs, Some err) => (add_calls w evs, Err err)
      | (evs, None) =>
          let w := mkWrapper to (path w) None None (subs w)
                     (requiresRestart w) (calls w ++ evs) in
          let '(w, wg) := notifyListeners w from to in
          (w, Ok wg)
      end
  end.

(** [func (w *wrapper) Replace(cfg Configuration) (Waiter, error)] *)
Definition Replace (w : wrapper) (c : Configuration) :=
  replaceLocked w c.

(** [func (w *wrapper) SetDevices(devs []DeviceConfiguration) (Waiter, error)] *)
Definition SetDevices (w : wrapper) (devs : list DeviceConfiguration) :=
  let newCfg := cfg w in
  let newCfg := set_cfg_Devices newCfg
                  (foldl setDevice1 (cfg_Devices newCfg) devs) in
  replaceLocked w newCfg.

(** [func (w *wrapper) SetDevice(dev DeviceConfiguration) (Waiter, error)] *)
Definition SetDevice (w : wrapper) (dev : DeviceConfiguration) :=
  SetDevices w [dev].

(** [func (w *wrapper) RemoveDevice(id protocol.DeviceID) (Waiter, error)] *)
Definition RemoveDevice (w : wrapper) (id : DeviceID) :=
  let newCfg := cfg w in
  match removeDevice (cfg_Devices newCfg) id with
  | Some ds => replaceLocked w (set_cfg_Devices newCfg ds)
  | None => (w, Ok noopWaiter)
  end.

(** [func (w *wrapper) SetFolder(fld FolderConfiguration) (Waiter, error)] *)
Definition SetFolder (w : wrapper) (fld : FolderConfiguration) :=
  let newCfg := cfg w in
  match replaceFolder (cfg_Folders newCfg) fld with
  | Some fs => replaceLocked w (set_cfg_Folders newCfg fs)
  | None =>
      replaceLocked w (set_cfg_Folders newCfg (cfg_Folders newCfg ++ [fld]))
  end.

(** [func (w *wrapper) SetOptions(opts OptionsConfiguration) (Waiter, error)] *)
Definition SetOptions (w : wrapper) (opts : OptionsConfiguration) :=
  replaceLocked w (set_cfg_Options (cfg w) opts).

(** [func (w *wrapper) SetGUI(gui GUIConfiguration) (Waiter, error)] *)
Definition SetGUI (w : wrapper) (gui : GUIConfiguration) :=
  replaceLocked w (set_cfg_GUI (cfg w) gui).

(** The methods of the [Wrapper] interface that write to the wrapper.  The
    others ([RawCopy], [Device], [Folder], [Options], [GUI], [Save], ...)
    only read it. *)
Inductive method :=
| mSubscribe (c : Committer)
| mUnsubscribe (c : Committer)
| mReplace (c : Configuration)
| mSetDevices (devs : list DeviceConfiguration)
| mSetDevice (dev : DeviceConfiguration)
| mRemoveDevice (id : DeviceID)
| mSetFolder (fld : FolderConfiguration)
| mSetOptions (opts : OptionsConfiguration)
| mSetGUI (gui : GUIConfiguration)
| mDevices
| mFolders
| mAddOrUpdatePendingDevice (now : Z) (device : DeviceID) (name address : string)
| mAddOrUpdatePendingFolder (now : Z) (id label : string) (device : DeviceID).

(** One call of a method, with what it returns of an error. *)
Definition invoke (w : wrapper) (m : method) : outcome (wrapper * option error) :=
  let transition (r : wrapper * result Waiter) :=
    match r with
    | (w', Ok _) => Returns (w', None)
    | (w', Err e) => Returns (w', Some e)
    end in
  match m with
  | mSubscribe c => Returns (Subscribe w c, None)
  | mUnsubscribe c => Returns (Unsubscribe w c, None)
  | mReplace c => transition (Replace w c)
  | mSetDevices devs => transition (SetDevices w devs)
  | mSetDevice dev => transition (SetDevice w dev)
  | mRemoveDevice id => transition (RemoveDevice w id)
  | mSetFolder fld => transition (SetFolder w fld)
  | mSetOptions opts => transition (SetOptions w opts)
  | mSetGUI gui => transition (SetGUI w gui)
  | mDevices => Returns ((Devices w).1, None)
  | mFolders => Returns ((Folders w).1, None)
  | mAddOrUpdatePendingDevice now device name address =>
      Returns (AddOrUpdatePendingDevice w now device name address, None)
  | mAddOrUpdatePendingFolder now id label device =>
      match AddOrUpdatePendingFolder w now id label device with
      | Returns w' => Returns (w', None)
      | Panics msg => Panics msg
      end
  end.

(** A run of the wrapper: the calls made on it one after the other, up to
    the first panic. *)
Fixpoint invokeAll (w : wrapper) (ms : list method) : outcome wrapper :=
  match ms with
  | [] => Returns w
  | m :: ms' =>
      match invoke w m with
      | Returns (w', _) => invokeAll w' ms'
      | Panics msg => Panics msg
      end
  end.

(** The configuration a transition hands to [replaceLocked]; [None] for the
    removal of a device that is not there, which replaces nothing. *)
Definition proposed (w : wrapper) (m : method) : option Configuration :=
  match m with
  | mReplace c => Some c
  | mSetDevices devs =>
      Some (set_cfg_Devices (cfg w) (foldl setDevice1 (cfg_Devices (cfg w)) devs))
  | mSetDevice dev =>
      Some (set_cfg_Devices (cfg w) (setDevice1 (cfg_Devices (cfg w)) dev))
  | mRemoveDevice id =>
      set_cfg_Devices (cfg w) <$> removeDevice (cfg_Devices (cfg w)) id
  | mSetFolder fld =>
      Some (set_cfg_Folders (cfg w)
              (default (cfg_Folders (cfg w) ++ [fld])
                 (replaceFolder (cfg_Folders (cfg w)) fld)))
  | mSetOptions opts => Some (set_cfg_Options (cfg w) opts)
  | mSetGUI gui => Some (set_cfg_GUI (cfg w) gui)
  | _ => None
  end.

End Wrapper.

(** A call that is not a CommitConfiguration. *)
Definition not_Committed (ev : call) : Prop := is_Committed ev = false.

(** The loop of [notifyListeners], once every goroutine has returned. *)
Definition notifyAll (from to : Configuration) (w : wrapper)
    (ss : list Committer) : wrapper :=
  foldl (fun w sub => notifyListener w sub from to) w ss.

End config.

(** ** syncthing: the application object *)

Module syncthing.
Import protocol config.

(** [type ExitStatus int] *)
Definition ExitStatus := Z.
Definition ExitSuccess : ExitStatus := 0.
Definition ExitError : ExitStatus := 1.
Definition ExitRestart : ExitStatus := 3.
Definition ExitUpgrade : ExitStatus := 4.

(** [type Options struct]; [AuditWriter] says whether a writer was given. *)
Record Options := mkAppOptions {
  AssetDir : string;
  AuditWriter : bool;
  DeadlockTimeoutS : Z;
  NoUpgrade : bool;
  ProfilerURL : string;
  ResetDeltaIdxs : bool;
  Verbose : bool
}.

(** What the application does to the services, the database and the model
    it drives, in the order it does it. *)
Inductive effect :=
| ServeBackground
| AddService (name : string)
| MaximizeOpenFileLimit
| EventLogged (name : string)
| ProfilerStarted (url : string)
| CpuBench
| SchemaUpdated
| DeltaIndexIDsDropped
| FolderDropped (folder : string)
| PrevVersionPut (version : string)
| ModelCreated
| DeadlockDetectorStarted (seconds : Z)
| RootCreated (folder : string)
| FolderAdded (folder : string)
| FolderStarted (folder : string)
| GlobalDiscoveryAdded (srv : string)
| LocalDiscoveryAdded (v6 : bool)
| ConfigSaved
| LowPrioritySet
| RunStarted.

(** The effects that bring a folder runner to life. *)
Definition starts_folder (e : effect) : bool :=
  match e with
  | ModelCreated | FolderAdded _ | FolderStarted _ => true
  | _ => false
  end.

(** [type App struct].  The channels [stop] and [stopped] are kept as
    "has been closed"; the two [sync.Once] as "has run". *)
Record App := mkApp {
  myID : DeviceID;
  app_cfg : wrapper;
  opts : Options;
  exitStatus : ExitStatus;
  err : option error;
  startOnce : bool;
  stopOnce : bool;
  stop : bool;
  stopped : bool;
  effects : list effect
}.

(** [func New(cfg config.Wrapper, ll *db.Lowlevel, cert tls.Certificate, opts Options) *App] *)
Definition New (w : wrapper) (o : Options) : App :=
  mkApp EmptyDeviceID w o ExitSuccess None false false false false [].

Definition set_myID (a : App) id :=
  mkApp id (app_cfg a) (opts a) (exitStatus a) (err a) (startOnce a)
    (stopOnce a) (stop a) (stopped a) (effects a).
Definition set_app_cfg (a : App) w :=
  mkApp (myID a) w (opts a) (exitStatus a) (err a) (startOnce a)
    (stopOnce a) (stop a) (stopped a) (effects a).
Definition add_effect (a : App) e :=
  mkApp (myID a) (app_cfg a) (opts a) (exitStatus a) (err a) (startOnce a)
    (stopOnce a) (stop a) (stopped a) (effects a ++ [e]).

(** [func (a *App) stopWithErr(stopReason ExitStatus, err error) ExitStatus].
    [stopOnce.Do] runs its argument on the first call only; closing a
    channel that is closed already panics. *)
Definition stopWithErr (a : App) (stopReason : ExitStatus)
    (e : option error) : outcome (App * ExitStatus) :=
  if stopOnce a then Returns (a, exitStatus a)
  else
    let '(status, e') :=
      if exitStatus a =? ExitSuccess then (stopReason, e)
      else (exitStatus a, err a) in
    if stop a then Panics "close of closed channel"
    else
      Returns (mkApp (myID a) (app_cfg a) (opts a) status e' (startOnce a)
                 true true (stopped a) (effects a), status).

(** [func (a *App) Stop(stopReason ExitStatus) ExitStatus] *)
Definition Stop (a : App) (stopReason : ExitStatus) :=
  stopWithErr a stopReason None.

(** A call that stops the application: [Stop], or [stopWithErr] from
    within. *)
Inductive stopCall :=
| callStop (stopReason : ExitStatus)
| callStopWithErr (stopReason : ExitStatus) (e : option error).

Definition reason (c : stopCall) : ExitStatus :=
  match c with callStop r => r | callStopWithErr r _ => r end.

Definition reported (c : stopCall) : option error :=
  match c with callStop _ => None | callStopWithErr _ e => e end.

Definition doStop (a : App) (c : stopCall) : outcome (App * ExitStatus) :=
  match c with
  | callStop r => Stop a r
  | callStopWithErr r e => stopWithErr a r e
  end.

(** The calls one after the other, with the status each returns; the
    stop latch serialises concurrent callers. *)
Fixpoint doStops (a : App) (cs : list stopCall)
    : outcome (App * list ExitStatus) :=
  match cs with
  | [] => Returns (a, [])
  | c :: cs' =>
      match doStop a c with
      | Panics msg => Panics msg
      | Returns (a', st) =>
          match doStops a' cs' with
          | Panics msg => Panics msg
          | Returns (a'', sts) => Returns (a'', st :: sts)
          end
      end
  end.

(** [strings.Split(v, "-")[0]] *)
Fixpoint beforeDash (v : string) : string :=
  match v with
  | EmptyString => EmptyString
  | String c v' =>
      if Ascii.eqb c "-"%char then EmptyString else String c (beforeDash v')
  end.

(** What start-up learns from the packages it calls. *)
Record environment := mkEnvironment {
  env_NewDeviceID : DeviceID;
  env_UpdateSchema : option error;
  env_ListFolders : list string;
  env_prevVersion : string;
  env_Version : string;
  env_IsRelease : bool;
  env_IsBeta : bool;
  env_IsCandidate : bool;
  env_urVersion : Z;
  env_randString : string;
  env_GlobalDiscoveryServers : list string;
  env_NewGlobal : string -> bool;
  env_NewLocalV4 : bool;
  env_NewLocalV6 : bool;
  env_WaitForStart : option error;
  env_SetLowPriority : bool
}.

(** Start-up threads the application through its steps and stops at the
    first error. *)
Definition M (A : Type) : Type := App -> App * result A.

Definition ret {A} (x : A) : M A := fun a => (a, Ok x).

Definition bind {A B} (m : M A) (k : A -> M B) : M B :=
  fun a =>
    match m a with
    | (a', Ok x) => k x a'
    | (a', Err e) => (a', Err e)
    end.

Definition fail {A} (e : error) : M A := fun a => (a, Err e).

#[export] Instance M_ret : MRet M := @ret.
#[export] Instance M_bind : MBind M := fun A B k m => bind m k.

Definition get : M App := fun a => (a, Ok a).

Definition setMyID (id : DeviceID) : M unit :=
  fun a => (set_myID a id, Ok tt).

Definition emit (e : effect) : M unit := fun a => (add_effect a e, Ok tt).

Definition when (b : bool) (m : M unit) : M unit := if b then m else ret tt.

Definition check (r : option error) : M unit :=
  match r with Some e => fail e | None => ret tt end.

Fixpoint forEach {A} (l : list A) (f : A -> M unit) : M unit :=
  match l with
  | [] => ret tt
  | x :: l' => f x ;; forEach l' f
  end.

(** A call on the wrapper the application holds. *)
Definition onCfg {A} (f : wrapper -> wrapper * A) : M A :=
  fun a => let '(w, x) := f (app_cfg a) in (set_app_cfg a w, Ok x).

Section App.

Variable clean : Configuration -> result Configuration.

(** The order in which [range] walks a map is not fixed. *)
Variable rangeDevices : gmap DeviceID DeviceConfiguration -> list DeviceID.
Variable rangeFolders :
  gmap string FolderConfiguration -> list FolderConfiguration.

(** [DeviceID.String], for the error message. *)
Variable DeviceID_String : DeviceID -> string.

Variable env : environment.

(** The loop of [checkShortIDs] over the device IDs still to visit. *)
Fixpoint checkShortIDsLoop (exists_ : gmap ShortID DeviceID)
    (ids : list DeviceID) : option error :=
  match ids with
  | [] => None
  | deviceID :: ids' =>
      let shortID := Short deviceID in
      match exists_ !! shortID with
      | Some otherID =>
          Some (DeviceID_String deviceID +:+ " in conflict with " +:+
                DeviceID_String otherID)
      | None => checkShortIDsLoop (<[shortID := deviceID]> exists_) ids'
      end
  end.

(** [func checkShortIDs(cfg config.Wrapper) error] *)
Definition checkShortIDs (w : wrapper) : wrapper * option error :=
  let '(w, devices) := Devices w in
  (w, checkShortIDsLoop ∅ (rangeDevices devices)).

(** [func (a *App) setupGUI(...) error] *)
Definition setupGUI : M unit :=
  a ← get;
  let guiCfg := GUI (app_cfg a) in
  if negb (gui_Enabled guiCfg) then ret tt
  else
    emit (AddService "cpu") ;;
    emit (AddService "folderSummary") ;;
    emit (AddService "api") ;;
    check (env_WaitForStart env).

Definition setOptionsAndSave (o : OptionsConfiguration) : M unit :=
  onCfg (fun w => ((SetOptions clean w o).1, tt)) ;;
  emit ConfigSaved.

(** [func (a *App) startup() error] *)
Definition startup : M unit :=
  emit ServeBackground ;;
  a ← get;
  when (AuditWriter (opts a)) (emit (AddService "audit")) ;;
  when (Verbose (opts a)) (emit (AddService "verbose")) ;;
  emit MaximizeOpenFileLimit ;;
  setMyID (env_NewDeviceID env) ;;
  emit (EventLogged "Starting") ;;
  r ← onCfg checkShortIDs;
  check r ;;
  when (negb (String.eqb (ProfilerURL (opts a)) ""))
    (emit (ProfilerStarted (ProfilerURL (opts a)))) ;;
  emit CpuBench ;;
  emit SchemaUpdated ;;
  check (env_UpdateSchema env) ;;
  when (ResetDeltaIdxs (opts a)) (emit DeltaIndexIDsDropped) ;;
  folders ← onCfg Folders;
  forEach (env_ListFolders env) (fun folder =>
    when (bool_decide (folders !! folder = None))
      (emit (FolderDropped folder))) ;;
  when (negb (String.eqb (beforeDash (env_prevVersion env))
                         (beforeDash (env_Version env))))
    (emit DeltaIndexIDsDropped ;; emit (PrevVersionPut (env_Version env))) ;;
  emit ModelCreated ;;
  (if 0 <? DeadlockTimeoutS (opts a)
   then emit (DeadlockDetectorStarted (DeadlockTimeoutS (opts a)))
   else when (negb (env_IsRelease env) || env_IsBeta env)
          (emit (DeadlockDetectorStarted (20 * 60)))) ;;
  folders ← onCfg Folders;
  forEach (rangeFolders folders) (fun folderCfg =>
    if fld_Paused folderCfg then emit (RootCreated (fld_ID folderCfg))
    else
      emit (FolderAdded (fld_ID folderCfg)) ;;
      emit (FolderStarted (fld_ID folderCfg))) ;;
  emit (AddService "model") ;;
  emit (AddService "discovery") ;;
  emit (AddService "connections") ;;
  a ← get;
  when (opt_GlobalAnnEnabled (config.Options (app_cfg a)))
    (forEach (env_GlobalDiscoveryServers env) (fun srv =>
       when (env_NewGlobal env srv) (emit (GlobalDiscoveryAdded srv)))) ;;
  when (opt_LocalAnnEnabled (config.Options (app_cfg a)))
    (when (env_NewLocalV4 env) (emit (LocalDiscoveryAdded false)) ;;
     when (env_NewLocalV6 env) (emit (LocalDiscoveryAdded true))) ;;
  (let o := config.Options (app_cfg a) in
   when (env_IsCandidate env && negb (opt_URAccepted o =? env_urVersion env))
     (setOptionsAndSave (set_opt_URAccepted o (env_urVersion env)))) ;;
  a ← get;
  (let o := config.Options (app_cfg a) in
   when ((0 <? opt_URAccepted o) && String.eqb (opt_URUniqueID o) "")
     (setOptionsAndSave (set_opt_URUniqueID o (env_randString env)))) ;;
  emit (AddService "usageReporting") ;;
  setupGUI ;;
  emit (EventLogged "StartupComplete") ;;
  a ← get;
  when (opt_SetLowPriority (config.Options (app_cfg a)))
    (when (env_SetLowPriority env) (emit LowPrioritySet)).

(** [func (a *App) Start()] *)
Definition Start (a : App) : outcome App :=
  if startOnce a then Returns a
  else
    let a :=
      mkApp (myID a) (app_cfg a) (opts a) (exitStatus a) (err a) true
        (stopOnce a) (stop a) (stopped a) (effects a) in
    match startup a with
    | (a, Err e) =>
        match stopWithErr a ExitError (Some e) with
        | Returns (a, _) => Returns a
        | Panics msg => Panics msg
        end
    | (a, Ok _) => Returns (add_effect a RunStarted)
    end.

End App.

(** No stop has been asked for yet. *)
Definition running (a : App) : Prop :=
  stopOnce a = false /\ stop a = false /\ exitStatus a = ExitSuccess.

(** The effect starts no folder. *)
Definition quiet (ev : effect) : Prop := starts_folder ev = false.

End syncthing.

(** ** model: dispatch of cluster configurations and requests, scanning

    The model itself ([lib/model/model.go]) and the scanner are not among
    the sources; only the model's tests are.  What follows is written from
    the specification's description of the dispatch rules, with the tests as
    the cases to agree with. *)

Module model.
Import protocol config.

(** [func (f FolderConfiguration) SharedWith(device protocol.DeviceID) bool],
    as the tests use it. *)
Definition SharedWith (f : FolderConfiguration) (device : DeviceID) : bool :=
  existsb (fun fd => bool_decide (fd_DeviceID fd = device)) (fld_Devices f).

Definition lookupFolder (c : Configuration) (id : string)
    : option FolderConfiguration :=
  List.find (fun f => bool_decide (fld_ID f = id)) (cfg_Folders c).

Definition lookupDevice (c : Configuration) (id : DeviceID)
    : option DeviceConfiguration :=
  List.find (fun d => bool_decide (dev_DeviceID d = id)) (cfg_Devices c).

(** The configuration [SetFolder] proposes. *)
Definition setFolder (c : Configuration) (fld : FolderConfiguration)
    : Configuration :=
  set_cfg_Folders c
    (default (cfg_Folders c ++ [fld]) (replaceFolder (cfg_Folders c) fld)).

(** The elements of a path, between its separators. *)
Fixpoint pathElements (path : string) : list string :=
  match path with
  | EmptyString => [EmptyString]
  | String c path' =>
      match pathElements path' with
      | [] => [String c EmptyString]
      | x :: xs =>
          if Ascii.eqb c "/"%char then EmptyString :: x :: xs
          else String c x :: xs
      end
  end.

(** One element of a path against the elements that [filepath.Clean] has
    kept so far, the last one first: empty elements and [.] go, [..] takes
    the element before it with it, stays when there is none to take in a
    path that is not rooted, and goes at the root. *)
Definition cleanElement (rooted : bool) (kept : list string) (e : string)
    : list string :=
  if String.eqb e "" || String.eqb e "." then kept
  else if String.eqb e ".." then
    match kept with
    | k :: kept' => if String.eqb k ".." then e :: kept else kept'
    | [] => if rooted then [] else [e]
    end
  else e :: kept.

Fixpoint joinElements (es : list string) : string :=
  match es with
  | [] => ""
  | [e] => e
  | e :: es' => e +:+ "/" +:+ joinElements es'
  end.

(** [filepath.Clean], with [/] as the separator. *)
Definition Clean (path : string) : string :=
  let rooted :=
    match path with
    | String c _ => Ascii.eqb c "/"%char
    | EmptyString => false
    end in
  let out :=
    joinElements (rev (foldl (cleanElement rooted) [] (pathElements path))) in
  if rooted then "/" +:+ out
  else if String.eqb out "" then "." else out.

(** [filepath.Join] of a directory and a name: the elements from the first
    that is not empty on, joined by the separator and cleaned. *)
Definition Join (dir name : string) : string :=
  if negb (String.eqb dir "") then Clean (dir +:+ "/" +:+ name)
  else if negb (String.eqb name "") then Clean name
  else "".

(** *** Auto-accept *)

Section AutoAccept.

(** The function that makes a path name of a label or an ID; the dispatch
    is written for any, and [sanitizePath] below is the model's. *)
Variable sanitizePath : string -> string.

(** The names that exist in the default folder directory when the
    dispatch begins. *)
Variable entries : gset string.

(** The local device. *)
Variable self : DeviceID.

(** Modelled from the spec: the auto-accept rule of the model's
    cluster-config dispatch, which is not among the sources.  An unknown
    folder ID causes a new folder to be created locally, preferring the
    label over the ID for the on-disk directory name and falling back to the
    ID on conflict; the new path is generated from the sanitised name.  The
    folder is created with its directory, so that its name is an entry of
    the default folder directory from then on: [es] are the names that exist
    when the folder is looked at, and the names that exist afterwards are
    returned with the configuration.  When the ID is taken as well nothing
    is created, and a folder that is known already is shared with the peer
    where it is ([TestAutoAcceptNameConflict],
    [TestAutoAcceptExistingFolder]). *)
Definition handleAutoAccepts (es : gset string) (c : Configuration)
    (deviceCfg : DeviceConfiguration) (folder : protocol.Folder)
    : gset string * Configuration :=
  match lookupFolder c (pf_ID folder) with
  | None =>
      let pathAlternatives :=
        [sanitizePath (pf_Label folder); sanitizePath (pf_ID folder)] in
      match List.find (fun name => negb (bool_decide (name ∈ es)))
                      pathAlternatives with
      | Some name =>
          ({[name]} ∪ es,
           setFolder c
             (mkFolder (pf_ID folder) (pf_Label folder)
                (Join (opt_DefaultFolderPath (cfg_Options c)) name)
                [mkFolderDevice (dev_DeviceID deviceCfg) EmptyDeviceID;
                 mkFolderDevice self EmptyDeviceID]
                false 0 0))
      | None => (es, c)
      end
  | Some fcfg =>
      if SharedWith fcfg (dev_DeviceID deviceCfg) then (es, c)
      else
        (es,
         setFolder c
           (set_fld_Devices fcfg
              (fld_Devices fcfg ++
               [mkFolderDevice (dev_DeviceID deviceCfg) EmptyDeviceID])))
  end.

(** Modelled from the spec: the auto-accept rule over the folders that the
    ClusterConfig lists, in their order (part of the dispatch, which is not
    among the sources). *)
Definition autoAccepts (es : gset string) (c : Configuration)
    (deviceCfg : DeviceConfiguration) (folders : list protocol.Folder)
    : gset string * Configuration :=
  foldl (fun st folder => handleAutoAccepts st.1 st.2 deviceCfg folder)
        (es, c) folders.

(** *** Introducer *)

(** Modelled from the spec: the introducer lists the device in the folder
    (part of the dispatch, which is not among the sources). *)
Definition lists (cm : protocol.ClusterConfig) (folder : string) (device : DeviceID)
    : bool :=
  existsb (fun f =>
             bool_decide (pf_ID f = folder) &&
             existsb (fun d => bool_decide (pd_ID d = device)) (pf_Devices f))
          (cc_Folders cm).

(** Modelled from the spec: a device that is new to the configuration
    enters it as introduced by the introducer (part of the dispatch, which
    is not among the sources); it has the flags the introducer gives for it
    ([TestIntroducer]). *)
Definition introduceDevice (c : Configuration) (device : protocol.Device)
    (introducerCfg : DeviceConfiguration) : Configuration :=
  set_cfg_Devices c
    (cfg_Devices c ++
     [mkDevice (pd_ID device) (pd_Name device) [] (pd_Introducer device)
        (pd_SkipIntroductionRemovals device) (dev_DeviceID introducerCfg)
        false false 0 []]).

(** Modelled from the spec: one device the introducer lists in a folder we
    have (part of the dispatch, which is not among the sources).  The local
    device is not introduced to itself. *)
Definition introduceInto (introducerCfg : DeviceConfiguration)
    (folderID : string) (c : Configuration) (device : protocol.Device)
    : Configuration :=
  if bool_decide (pd_ID device = self) then c
  else
    let c :=
      match lookupDevice c (pd_ID device) with
      | None => introduceDevice c device introducerCfg
      | Some _ => c
      end in
    match lookupFolder c folderID with
    | None => c
    | Some fcfg =>
        if SharedWith fcfg (pd_ID device) then c
        else
          setFolder c
            (set_fld_Devices fcfg
               (fld_Devices fcfg ++
                [mkFolderDevice (pd_ID device) (dev_DeviceID introducerCfg)]))
    end.

(** Modelled from the spec: the introducer rule of the dispatch, which is
    not among the sources.  If P is flagged as introducer, its
    ClusterConfig's per-folder device list may add new devices to the local
    configuration, as introduced by P. *)
Definition handleIntroductions (c : Configuration)
    (introducerCfg : DeviceConfiguration) (cm : protocol.ClusterConfig)
    : Configuration :=
  foldl (fun c folder =>
           match lookupFolder c (pf_ID folder) with
           | None => c
           | Some _ =>
               foldl (introduceInto introducerCfg (pf_ID folder)) c
                     (pf_Devices folder)
           end)
        c (cc_Folders cm).

(** Modelled from the spec: the folder's devices once those that the
    introducer brought in and no longer lists there are taken out (part of
    the dispatch, which is not among the sources). *)
Definition unshare (introducer : DeviceID) (cm : protocol.ClusterConfig)
    (f : FolderConfiguration) : FolderConfiguration :=
  set_fld_Devices f
    (List.filter
       (fun fd =>
          negb (bool_decide (fd_IntroducedBy fd = introducer)) ||
          lists cm (fld_ID f) (fd_DeviceID fd))
       (fld_Devices f)).

(** Modelled from the spec: some folder retains the device (part of the
    dispatch, which is not among the sources). *)
Definition retained (fs : list FolderConfiguration) (device : DeviceID)
    : bool :=
  existsb (fun f => SharedWith f device) fs.

(** Modelled from the spec: the removal rule of the dispatch, which is not
    among the sources.  If P drops devices from its ClusterConfig and P is
    the introducer of those devices in a folder, they are removed from that
    folder, and from the device roster if no other folder retains them. *)
Definition handleDeintroductions (c : Configuration)
    (introducerCfg : DeviceConfiguration) (cm : protocol.ClusterConfig)
    : Configuration :=
  let introducer := dev_DeviceID introducerCfg in
  let folders := unshare introducer cm <$> cfg_Folders c in
  let devices :=
    List.filter
      (fun d =>
         negb (bool_decide (dev_IntroducedBy d = introducer)) ||
         retained folders (dev_DeviceID d))
      (cfg_Devices c) in
  set_cfg_Devices (set_cfg_Folders c folders) devices.

(** Modelled from the spec: the dispatch of a ClusterConfig from peer P,
    as far as it changes the configuration: auto-accept when the local
    configuration flags P with AutoAcceptFolders, the introducer rule when
    it flags P as introducer, with SkipIntroductionRemovals on P
    suppressing the removals. *)
Definition ClusterConfig (c : Configuration) (deviceID : DeviceID)
    (cm : protocol.ClusterConfig) : Configuration :=
  match lookupDevice c deviceID with
  | None => c
  | Some deviceCfg =>
      let c :=
        if dev_AutoAcceptFolders deviceCfg
        then (autoAccepts entries c deviceCfg (cc_Folders cm)).2
        else c in
      if dev_Introducer deviceCfg then
        let c := handleIntroductions c deviceCfg cm in
        if dev_SkipIntroductionRemovals deviceCfg then c
        else handleDeintroductions c deviceCfg cm
      else c
  end.

End AutoAccept.

(** Modelled from the spec: the characters that [sanitizePath], which is
    not among the sources, does not let into a path name: control
    characters, the characters that Windows does not allow in file names,
    common shell metacharacters and white space. *)
Definition invalidInPath (c : ascii) : bool :=
  let n := nat_of_ascii c in
  (n <? 32)%nat || (n =? 127)%nat ||
  existsb (Nat.eqb n)
    [60; 62; 58; 34; 39; 47; 92; 124; 63; 42; 32; 91; 93; 123; 125; 59; 33;
     64; 36; 37; 38; 94; 35]%nat.

(** Modelled from the spec: every span of such characters becomes one
    space (part of [sanitizePath], which is not among the sources). *)
Fixpoint replaceSpans (inSpan : bool) (path : string) : string :=
  match path with
  | EmptyString => EmptyString
  | String c path' =>
      if invalidInPath c then
        if inSpan then replaceSpans true path'
        else String " " (replaceSpans true path')
      else String c (replaceSpans false path')
  end.

(** Without the spaces at the left end, and at the right end. *)
Fixpoint trimLeft (s : string) : string :=
  match s with
  | String c s' => if Ascii.eqb c " "%char then trimLeft s' else s
  | EmptyString => EmptyString
  end.

Fixpoint trimRight (s : string) : string :=
  match s with
  | EmptyString => EmptyString
  | String c s' =>
      let t := trimRight s' in
      if Ascii.eqb c " "%char && String.eqb t "" then EmptyString
      else String c t
  end.

(** Modelled from the spec: [sanitizePath], which is not among the sources;
    only its test is.  Reserved characters are sanitised when a new local
    path is generated from a remote label: every span of them becomes one
    space, and the spaces at either end go ([TestSanitizePath]). *)
Definition sanitizePath (path : string) : string :=
  trimRight (trimLeft (replaceSpans false path)).

(** *** Requests *)

(** The components of a slash-separated name. *)
Fixpoint splitSlash (name : string) : list string :=
  match name with
  | EmptyString => [EmptyString]
  | String c name' =>
      if Ascii.eqb c "/"%char then EmptyString :: splitSlash name'
      else
        match splitSlash name' with
        | [] => [String c EmptyString]
        | x :: xs => String c x :: xs
        end
  end.

Definition hasDotDot (name : string) : bool :=
  existsb (String.eqb "..") (splitSlash name).

Definition isAbsolute (name : string) : bool :=
  match name with
  | String c _ => Ascii.eqb c "/"%char
  | EmptyString => false
  end.

Fixpoint hasNUL (name : string) : bool :=
  match name with
  | EmptyString => false
  | String c name' => Ascii.eqb c Ascii.zero || hasNUL name'
  end.

(** Modelled from the spec: the path check of the request handler, which
    is not among the sources.  Paths containing [..], a leading [/], or NUL
    are rejected. *)
Definition safePath (name : string) : bool :=
  negb (hasDotDot name) && negb (isAbsolute name) && negb (hasNUL name).

(** The typed errors of a response. *)
Inductive RequestError :=
| ErrGeneric
| ErrNoSuchFile
| ErrInvalid.

(** The files of each folder on the local disk, by name. *)
Abbreviation Disk := (gmap string (gmap string (list Z))).

Definition readFile (disk : Disk) (folder name : string) : option (list Z) :=
  disk !! folder ≫= fun files => files !! name.

(** Modelled from the spec: [Model.Request], which is not among the
    sources.  It validates folder membership and path safety, reads from the
    local disk, and returns data or a typed error; requests with negative
    offset, zero (or negative) size, or a size exceeding what is stored are
    rejected.  Which typed error answers which rejection is not said; the
    arguments are in the order the tests pass them. *)
Definition Request (c : Configuration) (disk : Disk) (deviceID : DeviceID)
    (folder name : string) (size offset : Z) : RequestError + list Z :=
  if (size <=? 0) || (offset <? 0) then inl ErrInvalid
  else
    match lookupFolder c folder with
    | None => inl ErrGeneric
    | Some fcfg =>
        if negb (SharedWith fcfg deviceID) then inl ErrGeneric
        else if negb (safePath name) then inl ErrInvalid
        else
          match readFile disk folder name with
          | None => inl ErrNoSuchFile
          | Some data =>
              if Z.of_nat (length data) <? offset + size then inl ErrNoSuchFile
              else inr (take (Z.to_nat size) (drop (Z.to_nat offset) data))
          end
    end.

(** *** Scanning *)

(** What the scanner compares of a file: modification time (in
    nanoseconds), size and permissions; and what it hashes. *)
Record Stat := mkStat {
  st_ModTime : Z;
  st_Size : Z;
  st_Mode : Z;
  st_Blocks : list (list Z)
}.

(** [protocol.FileInfo], as far as the scanner goes. *)
Record FileInfo := mkFileInfo {
  fi_Name : string;
  fi_Size : Z;
  fi_Permissions : Z;
  fi_Modified : Z;
  fi_Version : Vector;
  fi_Deleted : bool;
  fi_Blocks : list (list Z)
}.

Definition second : Z := 1000000000.

(** Modelled from the spec: the mod-time window, which is not among the
    sources.  Two modification times count as the same when they are equal
    or differ by less than the window: with a window of 2 s a change by 1 s
    is none and a change by 2 s is one. *)
Definition ModTimeEqual (a b window : Z) : bool :=
  (a =? b) || (Z.abs (a - b) <? window).

(** Modelled from the spec: the scanner's comparison, which is not among
    the sources.  The entry is unchanged when (modified, size, permissions)
    are those of the stored FileInfo. *)
Definition unchanged (window : Z) (cur : FileInfo) (st : Stat) : bool :=
  negb (fi_Deleted cur) &&
  ModTimeEqual (fi_Modified cur) (st_ModTime st) window &&
  (fi_Size cur =? st_Size st) && (fi_Permissions cur =? st_Mode st).

(** Modelled from the spec: the scanner's step for one entry, which is not
    among the sources.  Unchanged entries are skipped; changed entries are
    hashed into blocks, and a new FileInfo with bumped
    [version = local.version.update(self.short)] is committed.  Entries that
    are gone from the disk are committed as deleted, without blocks. *)
Definition scanEntry (selfShort : ShortID) (window : Z) (name : string)
    (cur : option FileInfo) (st : option Stat) : option FileInfo :=
  match cur, st with
  | None, None => None
  | None, Some st =>
      Some (mkFileInfo name (st_Size st) (st_Mode st) (st_ModTime st)
              (Update [] selfShort) false (st_Blocks st))
  | Some cur, Some st =>
      if unchanged window cur st then Some cur
      else
        Some (mkFileInfo name (st_Size st) (st_Mode st) (st_ModTime st)
                (Update (fi_Version cur) selfShort) false (st_Blocks st))
  | Some cur, None =>
      if fi_Deleted cur then Some cur
      else
        Some (mkFileInfo name 0 (fi_Permissions cur) (fi_Modified cur)
                (Update (fi_Version cur) selfShort) true [])
  end.

(** Modelled from the spec: [ScanFolders] on one folder, which is not
    among the sources: every name on the disk or in the local file list is
    visited. *)
Definition ScanFolder (selfShort : ShortID) (modTimeWindowS : Z)
    (files : gmap string Stat) (local : gmap string FileInfo)
    : gmap string FileInfo :=
  map_imap
    (fun name (p : option FileInfo * option Stat) =>
       scanEntry selfShort (modTimeWindowS * second) name p.1 p.2)
    (merge (fun cur st =>
              match cur, st with
              | None, None => None
              | _, _ => Some (cur, st)
              end) local files).

(** [Chtimes]: the modification time of a file is set, nothing else. *)
Definition Chtimes (files : gmap string Stat) (name : string) (mtime : Z)
    : gmap string Stat :=
  match files !! name with
  | Some st =>
      <[name := mkStat mtime (st_Size st) (st_Mode st) (st_Blocks st)]> files
  | None => files
  end.

(** *** What the claims speak of *)

(** The request is answered with an error. *)
Definition rejected (r : RequestError + list Z) : Prop :=
  match r with inl _ => True | inr _ => False end.

(** The device shares the folder. *)
Definition shares (c : Configuration) (folder : string) (device : DeviceID)
    : bool :=
  match lookupFolder c folder with
  | Some fcfg => SharedWith fcfg device
  | None => false
  end.

(** The names on the disk are folder-relative: normalised, not absolute,
    without parent components. *)
Definition wf_Disk (disk : Disk) : Prop :=
  forall folder name data,
    readFile disk folder name = Some data -> safePath name = true.

(** The stored FileInfo is what a scan of the file as it is commits. *)
Definition scanned (cur : FileInfo) (st : Stat) : Prop :=
  fi_Deleted cur = false /\ fi_Modified cur = st_ModTime st /\
  fi_Size cur = st_Size st /\ fi_Permissions cur = st_Mode st.

(** Wherever D is, in the folder or in the roster, P brought it there. *)
Definition brought_by (P D : DeviceID) (fid : string) (c : Configuration)
    : Prop :=
  (forall F fd, F ∈ cfg_Folders c -> fld_ID F = fid ->
     fd ∈ fld_Devices F -> fd_DeviceID fd = D -> fd_IntroducedBy fd = P) /\
  (forall d, d ∈ cfg_Devices c -> dev_DeviceID d = D -> dev_IntroducedBy d = P).

Definition hasID (id : string) (f : FolderConfiguration) : bool :=
  bool_decide (fld_ID f = id).

(** The folder is configured at path [p] and shared with P, not through an
    introducer. *)
Definition accepted (P : DeviceID) (id p : string) (c : Configuration)
    : Prop :=
  exists fcfg,
    lookupFolder c id = Some fcfg /\ fld_Path fcfg = p /\
    mkFolderDevice P EmptyDeviceID ∈ fld_Devices fcfg.

(** The folder ID is not known locally. *)
Definition unknown (id : string) (c : Configuration) : Prop :=
  lookupFolder c id = None.

(** The names that exist in the default folder directory when the dispatch
    of the peer's ClusterConfig has dealt with the folders [pre] that it
    lists first: those that were there, and the directories of the folders
    auto-accepted among [pre]. *)
Definition entriesAt (sanitize : string -> string) (self : DeviceID)
    (entries : gset string) (c : Configuration)
    (deviceCfg : DeviceConfiguration) (pre : list protocol.Folder)
    : gset string :=
  (autoAccepts sanitize self entries c deviceCfg pre).1.

End model.

(** ** Test data

    Configurations in the shape of the model tests' ([TestIntroducer],
    [TestAutoAccept...], [TestRequest], [TestModTimeWindow]), to run the
    definitions on. *)

Module testdata.
Import protocol config syncthing model.

Definition myID : DeviceID := Eval cbv in replicate 31 0 ++ [9].
Definition device1 : DeviceID := Eval cbv in 1 :: replicate 31 0.
Definition device2 : DeviceID := Eval cbv in 2 :: replicate 31 0.

(** A device ID with the first 8 bytes of [device1]. *)
Definition device1' : DeviceID := Eval cbv in 1 :: replicate 30 0 ++ [7].

Definition device (id : DeviceID) : DeviceConfiguration :=
  mkDevice id "" [] false false EmptyDeviceID false false 0 [].

Definition introducer (id : DeviceID) : DeviceConfiguration :=
  mkDevice id "" [] true false EmptyDeviceID false false 0 [].

Definition introduced (id by_ : DeviceID) : DeviceConfiguration :=
  mkDevice id "" [] false false by_ false false 0 [].

Definition autoAccepting (id : DeviceID) : DeviceConfiguration :=
  mkDevice id "" [] false false EmptyDeviceID false true 0 [].

Definition folder (id : string) (ds : list FolderDeviceConfiguration)
    : FolderConfiguration :=
  mkFolder id "" "testdata" ds false 0 0.

Definition options : OptionsConfiguration :=
  mkOptions [] [] [] "." false false 0 "" false.

Definition configuration (ds : list DeviceConfiguration)
    (fs : list FolderConfiguration) : Configuration :=
  mkConfiguration fs ds (mkGUI false false) options [] [] myID.

(** [defaultCfg]: one folder, shared with the first device. *)
Definition defaultCfg : Configuration :=
  configuration [device myID; device device1; device device2]
    [folder "default"
       [mkFolderDevice myID EmptyDeviceID; mkFolderDevice device1 EmptyDeviceID]].

(** [defaultAutoAcceptCfg]: no folder, both devices auto-accepted. *)
Definition defaultAutoAcceptCfg : Configuration :=
  configuration [device myID; autoAccepting device1; autoAccepting device2] [].

(** The third configuration of [TestIntroducer]. *)
Definition introducedCfg : Configuration :=
  configuration [introducer device1; introduced device2 device1]
    [folder "folder1"
       [mkFolderDevice device1 EmptyDeviceID; mkFolderDevice device2 device1];
     folder "folder2"
       [mkFolderDevice device1 EmptyDeviceID; mkFolderDevice device2 device1]].

(** Two devices whose short IDs collide. *)
Definition collidingCfg : Configuration :=
  configuration [device device1; device device1'] [folder "default" []].

Definition cleanOk (c : Configuration) : result Configuration := Ok c.
Definition cleanFails (c : Configuration) : result Configuration :=
  Err "invalid".

Definition rejecting : Committer :=
  mkCommitter 1 (fun _ _ => Some "rejected") (fun _ _ => true).

Definition unhandled : Committer :=
  mkCommitter 2 (fun _ _ => None) (fun _ _ => false).

Definition rangeKeys (m : gmap DeviceID DeviceConfiguration) : list DeviceID :=
  (map_to_list m).*1.

Definition rangeValues (m : gmap string FolderConfiguration)
    : list FolderConfiguration :=
  (map_to_list m).*2.

Definition environment0 : environment :=
  mkEnvironment myID None [] "" "v1.2.0" true false false 3 "unique" []
    (fun _ => true) true true None true.

Definition appOptions : syncthing.Options :=
  mkAppOptions "" false 0 false "" false false.

(** The file [foo] of the test data: [foobar] and a newline. *)
Definition foo : list Z := [102; 111; 111; 98; 97; 114; 10].

Definition disk : Disk := {[ "default" := {[ "foo" := foo ]} ]}.

Definition noSanitize (name : string) : string := name.

(** The [contains] closure of [TestIntroducer]: the folder has the device,
    introduced by the given device if one is given. *)
Definition contains (c : Configuration) (folderID : string) (id : DeviceID)
    (introducedBy : option DeviceID) : bool :=
  match lookupFolder c folderID with
  | None => false
  | Some fcfg =>
      match List.find (fun fd => bool_decide (fd_DeviceID fd = id))
                      (fld_Devices fcfg) with
      | None => false
      | Some fd =>
          match introducedBy with
          | None => true
          | Some by_ => bool_decide (fd_IntroducedBy fd = by_)
          end
      end
  end.

Definition hasDevice (c : Configuration) (id : DeviceID) : bool :=
  match lookupDevice c id with Some _ => true | None => false end.

(** The dispatch as the tests run it: nothing to sanitise, an empty
    default folder directory. *)
Definition dispatch (c : Configuration) (from : DeviceID)
    (cm : protocol.ClusterConfig) : Configuration :=
  model.ClusterConfig noSanitize ∅ myID c from cm.

(** The configurations of [TestIntroducer], by the devices of the two
    folders besides the introducer. *)
Definition introducerCfg (intro : DeviceConfiguration)
    (ds : list DeviceConfiguration)
    (folder1 folder2 : list FolderDeviceConfiguration) : Configuration :=
  configuration (intro :: ds)
    [folder "folder1" (mkFolderDevice device1 EmptyDeviceID :: folder1);
     folder "folder2" (mkFolderDevice device1 EmptyDeviceID :: folder2)].

(** A peer with the all-zero device ID, flagged as introducer and with
    AutoAcceptFolders. *)
Definition zeroIntroducer : DeviceConfiguration :=
  mkDevice EmptyDeviceID "" [] true false EmptyDeviceID false true 0 [].

Definition lists2 (folderID : string) : protocol.ClusterConfig :=
  mkClusterConfig [mkPFolder folderID "" [mkPDevice device2 "" true true]].

End testdata.

(** * Properties *)

(** ** The configuration wrapper *)

Section WrapperProperties.
Import protocol config.

Variable clean : Configuration -> result Configuration.

Lemma verifySubs_only_verifies ss from to :
  Forall not_Committed (verifySubs ss from to).1.
Proof.
  induction ss as [|s ss IH]; simpl; [constructor|].
  destruct (VerifyConfiguration s from to) as [e|]; simpl.
  - repeat constructor.
  - destruct (verifySubs ss from to) as [evs r]; simpl in *.
    constructor; [reflexivity | exact IH].
Qed.

Lemma verifySubs_rejects ss from to s e0 :
  s ∈ ss -> VerifyConfiguration s from to = Some e0 ->
  exists s' e, s' ∈ ss /\ VerifyConfiguration s' from to = Some e /\
               (verifySubs ss from to).2 = Some e.
Proof.
  induction ss as [|x ss IH]; intros Hin Hv.
  - inversion Hin.
  - simpl. destruct (VerifyConfiguration x from to) as [e|] eqn:Hx.
    + exists x, e. split; [left | split; [exact Hx | reflexivity]].
    + apply elem_of_cons in Hin as [-> | Hin]; [congruence|].
      destruct (IH Hin Hv) as (s' & e & Hs' & Hv' & Hr).
      exists s', e. split; [right; exact Hs' | split; [exact Hv'|]].
      destruct (verifySubs ss from to); exact Hr.
Qed.

Lemma verifySubs_accepts ss from to :
  (forall s, s ∈ ss -> VerifyConfiguration s from to = None) ->
  (verifySubs ss from to).2 = None.
Proof.
  induction ss as [|x ss IH]; intros Hall; simpl; [reflexivity|].
  rewrite (Hall x) by left.
  specialize (IH (fun s Hs => Hall s (list_elem_of_further _ _ _ Hs))).
  destruct (verifySubs ss from to); exact IH.
Qed.

(** Every transition is one call of [replaceLocked] on the configuration
    it proposes. *)
Lemma invoke_proposed w m to :
  proposed w m = Some to ->
  invoke clean w m =
    match replaceLocked clean w to with
    | (w', Ok _) => Returns (w', None)
    | (w', Err e) => Returns (w', Some e)
    end.
Proof.
  destruct m; simpl; intros H; try discriminate; try (injection H as <-);
    try reflexivity.
  - unfold RemoveDevice.
    destruct (removeDevice (cfg_Devices (cfg w)) id); simpl in H;
      [injection H as <-; reflexivity | discriminate].
  - unfold SetFolder.
    destruct (replaceFolder (cfg_Folders (cfg w)) fld); reflexivity.
Qed.

Lemma replaceLocked_clean_fails w to e :
  clean to = Err e -> replaceLocked clean w to = (w, Err e).
Proof. intros H. unfold replaceLocked. rewrite H. reflexivity. Qed.

Lemma replaceLocked_rejected w to to' e :
  clean to = Ok to' ->
  (verifySubs (subs w) (cfg w) to').2 = Some e ->
  replaceLocked clean w to =
    (add_calls w (verifySubs (subs w) (cfg w) to').1, Err e).
Proof.
  intros Hc Hv. unfold replaceLocked. rewrite Hc.
  destruct (verifySubs (subs w) (cfg w) to') as [evs r]; simpl in *.
  rewrite Hv. reflexivity.
Qed.

(** C1. For each configuration transition (Replace, SetFolder, SetDevice,
    SetDevices, SetOptions, SetGUI, RemoveDevice of a configured device):
    when cleaning the proposed configuration fails, the call returns that
    error and the wrapper is as before; when some subscriber's
    VerifyConfiguration returns an error, the call returns the error of a
    rejecting subscriber, and the wrapper is as before, with the same
    configuration, except for the verification calls made, none of which is
    a CommitConfiguration. *)
Theorem rejected_transition_leaves_store (w : wrapper) (m : method)
    (to : Configuration) :
  proposed w m = Some to ->
  (forall e, clean to = Err e -> invoke clean w m = Returns (w, Some e)) /\
  (forall to' s e0,
     clean to = Ok to' -> s ∈ subs w ->
     VerifyConfiguration s (cfg w) to' = Some e0 ->
     exists s' e evs,
       s' ∈ subs w /\ VerifyConfiguration s' (cfg w) to' = Some e /\
       invoke clean w m = Returns (add_calls w evs, Some e) /\
       cfg (add_calls w evs) = cfg w /\
       Forall not_Committed evs).
Proof.
  intros Hp. rewrite (invoke_proposed _ _ _ Hp). split.
  - intros e He. rewrite (replaceLocked_clean_fails _ _ _ He). reflexivity.
  - intros to' s e0 Hc Hin Hv.
    destruct (verifySubs_rejects _ _ _ _ _ Hin Hv) as (s' & e & Hs' & Hv' & Hr).
    exists s', e, (verifySubs (subs w) (cfg w) to').1.
    rewrite (replaceLocked_rejected _ _ _ _ Hc Hr).
    repeat split; try assumption. apply verifySubs_only_verifies.
Qed.

(** *** The restart flag *)

Lemma notifyListener_keeps_flag w sub from to :
  RequiresRestart w = true ->
  RequiresRestart (notifyListener w sub from to) = true.
Proof.
  unfold notifyListener.
  destruct (CommitConfiguration sub from to); simpl; intros H;
    [exact H | reflexivity].
Qed.

Lemma notifyAll_keeps_flag from to ss : forall w,
  RequiresRestart w = true -> RequiresRestart (notifyAll from to w ss) = true.
Proof.
  induction ss as [|s ss IH]; intros w H; simpl; [exact H|].
  apply IH, notifyListener_keeps_flag, H.
Qed.

Lemma notifyAll_sets_flag from to ss : forall w s,
  s ∈ ss -> CommitConfiguration s from to = false ->
  RequiresRestart (notifyAll from to w ss) = true.
Proof.
  induction ss as [|x ss IH]; intros w s Hin Hc; [inversion Hin|].
  simpl. apply elem_of_cons in Hin as [-> | Hin].
  - apply notifyAll_keeps_flag. unfold notifyListener. rewrite Hc. reflexivity.
  - eapply IH; eassumption.
Qed.

Lemma replaceLocked_accepted w to to' :
  clean to = Ok to' ->
  (verifySubs (subs w) (cfg w) to').2 = None ->
  exists w0 wg,
    replaceLocked clean w to = (notifyAll (cfg w) to' w0 (subs w), Ok wg) /\
    cfg w0 = to' /\ requiresRestart w0 = requiresRestart w.
Proof.
  intros Hc Hv. unfold replaceLocked. rewrite Hc.
  destruct (verifySubs (subs w) (cfg w) to') as [evs r]; simpl in *.
  rewrite Hv. unfold notifyListeners. simpl.
  eexists _, _. split; [reflexivity | split; reflexivity].
Qed.

Lemma replaceLocked_keeps_flag w to :
  RequiresRestart w = true ->
  RequiresRestart (replaceLocked clean w to).1 = true.
Proof.
  intros H. unfold replaceLocked.
  destruct (clean to) as [to'|e]; [|exact H].
  destruct (verifySubs (subs w) (cfg w) to') as [evs [e|]]; [exact H|].
  unfold notifyListeners. simpl. apply notifyAll_keeps_flag. exact H.
Qed.

Lemma invoke_keeps_flag w m w' r :
  RequiresRestart w = true -> invoke clean w m = Returns (w', r) ->
  RequiresRestart w' = true.
Proof.
  intros H.
  assert (Ht : forall to w' r,
    match replaceLocked clean w to with
    | (w1, Ok _) => Returns (w1, None)
    | (w1, Err e) => Returns (w1, Some e)
    end = Returns (w', r) -> RequiresRestart w' = true).
  { intros to w1 r1 Heq. pose proof (replaceLocked_keeps_flag w to H) as Hk.
    destruct (replaceLocked clean w to) as [w2 [wg|e]]; simpl in Hk;
      injection Heq as <- _; exact Hk. }
  destruct m; simpl; try (apply Ht);
    try (intros Heq; injection Heq as <- _; exact H).
  - unfold RemoveDevice.
    destruct (removeDevice (cfg_Devices (cfg w)) id); [apply Ht|].
    intros Heq; injection Heq as <- _; exact H.
  - unfold SetFolder.
    destruct (replaceFolder (cfg_Folders (cfg w)) fld); apply Ht.
  - unfold Devices. destruct (deviceMap w); simpl;
      intros Heq; injection Heq as <- _; exact H.
  - unfold Folders. destruct (folderMap w); simpl;
      intros Heq; injection Heq as <- _; exact H.
  - unfold AddOrUpdatePendingDevice.
    destruct (updatePendingDevice _ _ _ _ _);
      intros Heq; injection Heq as <- _; exact H.
  - unfold AddOrUpdatePendingFolder.
    destruct (pendingFolderDevices _ _ _ _ _); [|discriminate].
    intros Heq; injection Heq as <- _; exact H.
Qed.

(** C6. When a transition is committed (the proposed configuration cleans
    and every subscriber accepts it) and some subscriber's
    CommitConfiguration returns false, RequiresRestart is true once the
    commit has been waited for; and once RequiresRestart is true it stays
    true through every later call on the wrapper. *)
Theorem restart_flag_latches (w : wrapper) :
  (forall m to to' s,
     proposed w m = Some to -> clean to = Ok to' ->
     (forall c, c ∈ subs w -> VerifyConfiguration c (cfg w) to' = None) ->
     s ∈ subs w -> CommitConfiguration s (cfg w) to' = false ->
     exists w', invoke clean w m = Returns (w', None) /\
                cfg w' = to' /\ RequiresRestart w' = true) /\
  (forall ms w',
     RequiresRestart w = true -> invokeAll clean w ms = Returns w' ->
     RequiresRestart w' = true).
Proof.
  split.
  - intros m to to' s Hp Hc Hv Hin Hcommit.
    rewrite (invoke_proposed _ _ _ Hp).
    destruct (replaceLocked_accepted w to to' Hc (verifySubs_accepts _ _ _ Hv))
      as (w0 & wg & -> & Hcfg & _).
    eexists. split; [reflexivity|]. split.
    + clear -Hcfg. revert w0 Hcfg. generalize (subs w).
      induction l as [|x l IH]; intros w0 Hcfg; simpl; [exact Hcfg|].
      apply IH. unfold notifyListener.
      destruct (CommitConfiguration x (cfg w) to'); simpl; exact Hcfg.
    + eapply notifyAll_sets_flag; eassumption.
  - intros ms. revert w. induction ms as [|m ms IH]; intros w w' H Hrun.
    + simpl in Hrun. injection Hrun as <-. exact H.
    + simpl in Hrun. destruct (invoke clean w m) as [[w1 r]|msg] eqn:Hi;
        [|discriminate].
      eapply IH; [|exact Hrun]. eapply invoke_keeps_flag; eassumption.
Qed.

(** *** Pending folders *)

Lemma updatePendingFolder_Some pfs now id label pfs' :
  updatePendingFolder pfs now id label = Some pfs' ->
  exists p1 f p2,
    pfs = p1 ++ f :: p2 /\ (id ∉ of_ID <$> p1) /\ of_ID f = id /\
    pfs' = p1 ++ mkObservedFolder now id label :: p2.
Proof.
  revert pfs'. induction pfs as [|x pfs IH]; intros pfs' H; [discriminate|].
  simpl in H. destruct (decide (of_ID x = id)) as [Heq|Hne].
  - injection H as <-. exists [], x, pfs. rewrite Heq.
    repeat split; try reflexivity. simpl. apply not_elem_of_nil.
  - destruct (updatePendingFolder pfs now id label) as [q|] eqn:Hq;
      [|discriminate].
    injection H as <-.
    destruct (IH q eq_refl) as (p1 & f & p2 & -> & Hnin & Hf & ->).
    exists (x :: p1), f, p2. repeat split; try assumption.
    simpl. rewrite not_elem_of_cons. split; [congruence | exact Hnin].
Qed.

Lemma updatePendingFolder_None pfs now id label :
  updatePendingFolder pfs now id label = None -> id ∉ (of_ID <$> pfs).
Proof.
  induction pfs as [|x pfs IH]; intros H; simpl; [apply not_elem_of_nil|].
  simpl in H. destruct (decide (of_ID x = id)); [discriminate|].
  destruct (updatePendingFolder pfs now id label); [discriminate|].
  rewrite not_elem_of_cons. split; [congruence | apply IH; reflexivity].
Qed.

Lemma pendingFolderDevices_Some ds now id label device ds' :
  pendingFolderDevices ds now id label device = Some ds' ->
  exists pre d post,
    ds = pre ++ d :: post /\ (device ∉ dev_DeviceID <$> pre) /\
    dev_DeviceID d = device /\
    ds' = pre ++ addOrUpdatePendingFolder d now id label :: post.
Proof.
  revert ds'. induction ds as [|x ds IH]; intros ds' H; [discriminate|].
  simpl in H. destruct (decide (dev_DeviceID x = device)) as [Heq|Hne].
  - injection H as <-. exists [], x, ds.
    repeat split; try assumption. simpl. apply not_elem_of_nil.
  - destruct (pendingFolderDevices ds now id label device) as [q|] eqn:Hq;
      [|discriminate].
    injection H as <-.
    destruct (IH q eq_refl) as (pre & d & post & -> & Hnin & Hd & ->).
    exists (x :: pre), d, post. repeat split; try assumption.
    simpl. rewrite not_elem_of_cons. split; [congruence | exact Hnin].
Qed.

Lemma pendingFolderDevices_None ds now id label device :
  pendingFolderDevices ds now id label device = None <->
  device ∉ (dev_DeviceID <$> ds).
Proof.
  induction ds as [|x ds IH]; simpl.
  - split; [intros _; apply not_elem_of_nil | reflexivity].
  - rewrite not_elem_of_cons.
    destruct (decide (dev_DeviceID x = device)) as [Heq|Hne].
    + split; [discriminate | intros [Hc _]; congruence].
    + destruct (pendingFolderDevices ds now id label device); simpl.
      * split; [discriminate|]. intros [_ Hn]. apply IH in Hn. discriminate.
      * split; [|reflexivity]. intros _. split; [congruence|].
        apply IH. reflexivity.
Qed.

(** C9. AddOrUpdatePendingFolder panics when no configured device has the
    given device ID.  Otherwise it returns normally, and in the first device
    with that ID it has either relabelled and re-timed the first pending
    folder with the given folder ID, or, when there is none, appended a new
    pending folder; nothing else of the configuration has changed. *)
Theorem AddOrUpdatePendingFolder_panics_or_updates (w : wrapper) (now : Z)
    (id label : string) (device : DeviceID) :
  (device ∉ (dev_DeviceID <$> cfg_Devices (cfg w)) ->
   exists msg, AddOrUpdatePendingFolder w now id label device = Panics msg) /\
  (device ∈ (dev_DeviceID <$> cfg_Devices (cfg w)) ->
   exists pre d post pfs',
     cfg_Devices (cfg w) = pre ++ d :: post /\
     (device ∉ dev_DeviceID <$> pre) /\ dev_DeviceID d = device /\
     AddOrUpdatePendingFolder w now id label device =
       Returns (set_cfg w (set_cfg_Devices (cfg w)
                  (pre ++ set_dev_PendingFolders d pfs' :: post))) /\
     ((exists p1 f p2,
         dev_PendingFolders d = p1 ++ f :: p2 /\ (id ∉ of_ID <$> p1) /\
         of_ID f = id /\
         pfs' = p1 ++ mkObservedFolder now id label :: p2) \/
      ((id ∉ of_ID <$> dev_PendingFolders d) /\
       pfs' = dev_PendingFolders d ++ [mkObservedFolder now id label]))).
Proof.
  unfold AddOrUpdatePendingFolder. split.
  - intros Hnin. apply pendingFolderDevices_None with (now := now) (id := id)
      (label := label) in Hnin. rewrite Hnin. eexists. reflexivity.
  - intros Hin.
    destruct (pendingFolderDevices (cfg_Devices (cfg w)) now id label device)
      as [ds'|] eqn:Hp.
    + destruct (pendingFolderDevices_Some _ _ _ _ _ _ Hp)
        as (pre & d & post & Hds & Hnin & Hd & ->).
      unfold addOrUpdatePendingFolder.
      destruct (updatePendingFolder (dev_PendingFolders d) now id label)
        as [pfs|] eqn:Hu.
      * exists pre, d, post, pfs. repeat split; try assumption.
        left. apply updatePendingFolder_Some. exact Hu.
      * exists pre, d, post, (dev_PendingFolders d ++ [mkObservedFolder now id label]).
        repeat split; try assumption.
        right. split; [|reflexivity].
        eapply updatePendingFolder_None. exact Hu.
    + apply pendingFolderDevices_None in Hp. contradiction.
Qed.

End WrapperProperties.

(** ** The application object *)

Section AppProperties.
Import protocol config syncthing.

Variable clean : Configuration -> result Configuration.
Variable rangeDevices : gmap DeviceID DeviceConfiguration -> list DeviceID.
Variable rangeFolders :
  gmap string FolderConfiguration -> list FolderConfiguration.
Variable DeviceID_String : DeviceID -> string.
Variable env : environment.

(** *** The stop latch *)

Lemma doStop_first a c :
  running a ->
  exists a1,
    doStop a c = Returns (a1, reason c) /\
    exitStatus a1 = reason c /\ err a1 = reported c /\
    stop a1 = true /\ stopOnce a1 = true.
Proof.
  intros (Honce & Hstop & Hst).
  destruct c as [r | r e]; simpl; unfold Stop, stopWithErr;
    rewrite Honce, Hst, Hstop; simpl; eexists; repeat split.
Qed.

Lemma doStop_later a c :
  stopOnce a = true -> doStop a c = Returns (a, exitStatus a).
Proof.
  intros H. destruct c; simpl; unfold Stop, stopWithErr; rewrite H; reflexivity.
Qed.

Lemma doStops_later a cs :
  stopOnce a = true ->
  doStops a cs = Returns (a, (fun _ => exitStatus a) <$> cs).
Proof.
  intros H. induction cs as [|c cs IH]; simpl; [reflexivity|].
  rewrite (doStop_later _ _ H), IH. reflexivity.
Qed.

(** C10. On an application that has not been stopped, the first call of
    Stop or stopWithErr records its status and error and closes the stop
    channel; every later call, whatever its status, leaves the application as
    it is and returns the status of the first call. *)
Theorem Stop_first_call_wins (a : App) (c : stopCall) (cs : list stopCall) :
  running a ->
  exists a1,
    doStop a c = Returns (a1, reason c) /\
    exitStatus a1 = reason c /\ err a1 = reported c /\ stop a1 = true /\
    (forall c', doStop a1 c' = Returns (a1, reason c)) /\
    doStops a (c :: cs) = Returns (a1, reason c :: ((fun _ => reason c) <$> cs)).
Proof.
  intros Hrun.
  destruct (doStop_first a c Hrun) as (a1 & H1 & Hst & Herr & Hstop & Honce).
  exists a1. repeat split; try assumption.
  - intros c'. rewrite (doStop_later _ _ Honce), Hst. reflexivity.
  - simpl. rewrite H1, (doStops_later _ _ Honce), Hst. reflexivity.
Qed.

(** *** Short device IDs *)

Lemma BigEndian_inj l1 : forall l2 acc1 acc2,
  length l1 = length l2 -> Forall wf_byte l1 -> Forall wf_byte l2 ->
  foldl (fun acc b => acc * 256 + b) acc1 l1 =
  foldl (fun acc b => acc * 256 + b) acc2 l2 ->
  acc1 = acc2 /\ l1 = l2.
Proof.
  induction l1 as [|b1 l1 IH]; intros [|b2 l2] acc1 acc2 Hlen H1 H2 Heq;
    try discriminate; simpl in *.
  - split; [exact Heq | reflexivity].
  - inversion H1 as [|? ? Hb1 H1']; inversion H2 as [|? ? Hb2 H2']; subst.
    destruct (IH l2 _ _ ltac:(lia) H1' H2' Heq) as [Hacc ->].
    unfold wf_byte in *.
    assert (acc1 = acc2) by lia. subst acc2.
    split; [reflexivity | f_equal; lia].
Qed.

Lemma Short_first_64_bits d1 d2 :
  wf_DeviceID d1 -> wf_DeviceID d2 ->
  Short d1 = Short d2 <-> take 8 d1 = take 8 d2.
Proof.
  intros [Hl1 Hb1] [Hl2 Hb2]. unfold Short, BigEndian. split.
  - intros H. eapply BigEndian_inj in H as [_ H]; [exact H | | |].
    + rewrite !length_take. lia.
    + apply Forall_take, Hb1.
    + apply Forall_take, Hb2.
  - intros ->. reflexivity.
Qed.

Lemma checkShortIDsLoop_None ids : forall seen,
  checkShortIDsLoop DeviceID_String seen ids = None <->
  NoDup (Short <$> ids) /\ forall d, d ∈ ids -> seen !! Short d = None.
Proof.
  induction ids as [|d ids IH]; intros seen; simpl.
  - split; [|reflexivity]. intros _. split; [constructor|].
    intros d Hd. inversion Hd.
  - destruct (seen !! Short d) as [other|] eqn:Hs.
    + split; [discriminate|]. intros [_ H].
      rewrite (H d) in Hs by left. discriminate.
    + rewrite IH, NoDup_cons. split.
      * intros [Hnd Hseen]. split; [split; [|exact Hnd]|].
        -- intros Hin. apply list_elem_of_fmap in Hin as (d' & Heq & Hd').
           specialize (Hseen d' Hd'). rewrite <- Heq in Hseen.
           rewrite lookup_insert_eq in Hseen. discriminate.
        -- intros d' Hd'. apply elem_of_cons in Hd' as [-> | Hd']; [exact Hs|].
           specialize (Hseen d' Hd').
           destruct (decide (Short d = Short d')) as [Heq|Hne].
           ++ rewrite Heq, lookup_insert_eq in Hseen. discriminate.
           ++ rewrite lookup_insert_ne in Hseen by exact Hne. exact Hseen.
      * intros [[Hnin Hnd] Hseen]. split; [exact Hnd|].
        intros d' Hd'. rewrite lookup_insert_ne.
        -- apply Hseen. right. exact Hd'.
        -- intros Heq. apply Hnin. rewrite Heq.
           apply list_elem_of_fmap_2. exact Hd'.
Qed.

Lemma fmap_collision (f : DeviceID -> Z) l :
  NoDup l -> ~ NoDup (f <$> l) ->
  exists x y, x ∈ l /\ y ∈ l /\ x <> y /\ f x = f y.
Proof.
  induction l as [|x l IH]; intros Hnd Hdup; simpl in *.
  - destruct Hdup. constructor.
  - apply NoDup_cons in Hnd as [Hx Hnd].
    destruct (decide (f x ∈ f <$> l)) as [Hin|Hnin].
    + apply list_elem_of_fmap in Hin as (y & Heq & Hy).
      exists x, y. repeat split; [left | right; exact Hy | | exact Heq].
      intros ->. contradiction.
    + destruct (decide (NoDup (f <$> l))) as [Hn|Hn].
      * destruct Hdup. apply NoDup_cons. split; assumption.
      * destruct (IH Hnd Hn) as (a & b & Ha & Hb & Hne & Heq).
        exists a, b. repeat split; try assumption; right; assumption.
Qed.

Lemma fmap_NoDup_inj (f : DeviceID -> Z) l x y :
  NoDup (f <$> l) -> x ∈ l -> y ∈ l -> f x = f y -> x = y.
Proof.
  induction l as [|z l IH]; intros Hnd Hx Hy Heq; [inversion Hx|].
  simpl in Hnd. apply NoDup_cons in Hnd as [Hz Hnd].
  apply elem_of_cons in Hx as [-> | Hx]; apply elem_of_cons in Hy as [-> | Hy].
  - reflexivity.
  - destruct Hz. rewrite Heq. apply list_elem_of_fmap_2, Hy.
  - destruct Hz. rewrite <- Heq. apply list_elem_of_fmap_2, Hx.
  - apply IH; assumption.
Qed.

Lemma checkShortIDsLoop_collision ids :
  NoDup ids ->
  (exists e, checkShortIDsLoop DeviceID_String ∅ ids = Some e) <->
  (exists d1 d2, d1 ∈ ids /\ d2 ∈ ids /\ d1 <> d2 /\ Short d1 = Short d2).
Proof.
  intros Hnd. split.
  - intros [e He]. apply fmap_collision; [exact Hnd|].
    intros Hs.
    assert (checkShortIDsLoop DeviceID_String ∅ ids = None) as Hn.
    { apply checkShortIDsLoop_None. split; [exact Hs|].
      intros d _. apply lookup_empty. }
    congruence.
  - intros (d1 & d2 & H1 & H2 & Hne & Heq).
    destruct (checkShortIDsLoop DeviceID_String ∅ ids) as [e|] eqn:Hl;
      [eexists; reflexivity|].
    apply checkShortIDsLoop_None in Hl as [Hs _].
    destruct Hne. eapply fmap_NoDup_inj; eassumption.
Qed.

Lemma dom_Devices_fresh (ds : list DeviceConfiguration) :
  forall (m : gmap DeviceID DeviceConfiguration) d,
  d ∈ dom (foldl (fun m dev => <[dev_DeviceID dev := dev]> m) m ds) <->
  d ∈ dom m \/ d ∈ (dev_DeviceID <$> ds).
Proof.
  induction ds as [|x ds IH]; intros m d; simpl.
  - split; [intros H; left; exact H | intros [H|H]; [exact H | inversion H]].
  - rewrite IH, dom_insert, elem_of_union, elem_of_singleton, elem_of_cons.
    tauto.
Qed.

Hypothesis rangeDevices_keys :
  forall m, rangeDevices m ≡ₚ (map_to_list m).*1.

Lemma rangeDevices_NoDup m : NoDup (rangeDevices m).
Proof. rewrite rangeDevices_keys. apply NoDup_fst_map_to_list. Qed.

Lemma rangeDevices_dom m d : d ∈ rangeDevices m <-> d ∈ dom m.
Proof.
  rewrite rangeDevices_keys, elem_of_dom. split.
  - intros Hin. apply list_elem_of_fmap in Hin as ([k v] & -> & Hkv).
    apply elem_of_map_to_list in Hkv. exists v. exact Hkv.
  - intros [v Hv]. apply list_elem_of_fmap. exists (d, v).
    split; [reflexivity | apply elem_of_map_to_list; exact Hv].
Qed.

Lemma startup_stops_at_conflict a e :
  (checkShortIDs rangeDevices DeviceID_String (app_cfg a)).2 = Some e ->
  exists a' evs,
    startup clean rangeDevices rangeFolders DeviceID_String env a = (a', Err e) /\
    effects a' = effects a ++ evs /\ Forall quiet evs /\
    startOnce a' = startOnce a /\ stopOnce a' = stopOnce a /\
    stop a' = stop a /\ exitStatus a' = exitStatus a.
Proof.
  intros Hc. unfold startup.
  unfold mbind, M_bind, bind, emit, get, when, setMyID, onCfg, check, fail, ret.
  cbn [add_effect set_myID set_app_cfg app_cfg opts effects myID exitStatus
       err startOnce stopOnce stop stopped].
  destruct (checkShortIDs rangeDevices DeviceID_String (app_cfg a))
    as [w r] eqn:Hcs.
  simpl in Hc. subst r.
  destruct (AuditWriter (opts a)), (Verbose (opts a));
    cbn [add_effect set_myID set_app_cfg app_cfg opts effects myID exitStatus
         err startOnce stopOnce stop stopped];
    rewrite Hcs;
    eexists _, _; (split; [reflexivity|]);
    cbn [add_effect set_myID set_app_cfg app_cfg opts effects myID exitStatus
         err startOnce stopOnce stop stopped];
    rewrite <- ?(assoc_L (++)); (split; [reflexivity|]);
    (split; [repeat constructor | repeat split]).
Qed.

(** C3. checkShortIDs returns an error exactly when two different device
    IDs of the configuration's device map have the same ShortID, and the
    ShortIDs of two well-formed device IDs are the same exactly when their
    first 8 bytes are.  When checkShortIDs returns an error, startup returns
    that error having created no model and added or started no folder, and
    Start on an application that is not stopped records ExitError with that
    error, closes the stop channel, and likewise starts nothing. *)
Theorem checkShortIDs_conflict_aborts_startup (a : App) :
  let m := (Devices (app_cfg a)).2 in
  ((exists e, (checkShortIDs rangeDevices DeviceID_String (app_cfg a)).2 = Some e) <->
   (exists d1 d2, d1 ∈ dom m /\ d2 ∈ dom m /\ d1 <> d2 /\ Short d1 = Short d2)) /\
  (deviceMap (app_cfg a) = None ->
   forall d, d ∈ dom m <-> d ∈ (dev_DeviceID <$> cfg_Devices (cfg (app_cfg a)))) /\
  (forall d1 d2, wf_DeviceID d1 -> wf_DeviceID d2 ->
     (Short d1 = Short d2 <-> take 8 d1 = take 8 d2)) /\
  (forall e,
     (checkShortIDs rangeDevices DeviceID_String (app_cfg a)).2 = Some e ->
     (exists a' evs,
        startup clean rangeDevices rangeFolders DeviceID_String env a = (a', Err e) /\
        effects a' = effects a ++ evs /\ Forall quiet evs) /\
     (startOnce a = false -> running a ->
      exists a'' evs,
        Start clean rangeDevices rangeFolders DeviceID_String env a = Returns a'' /\
        effects a'' = effects a ++ evs /\ Forall quiet evs /\
        exitStatus a'' = ExitError /\ err a'' = Some e /\ stop a'' = true)).
Proof.
  cbv zeta. split; [|split; [|split]].
  - unfold checkShortIDs. destruct (Devices (app_cfg a)) as [w m]; simpl.
    rewrite checkShortIDsLoop_collision by apply rangeDevices_NoDup.
    split; intros (d1 & d2 & H1 & H2 & Hne & Heq); exists d1, d2;
      [rewrite <- !rangeDevices_dom | rewrite !rangeDevices_dom]; auto.
  - intros Hnone d. unfold Devices. rewrite Hnone. simpl.
    rewrite dom_Devices_fresh, dom_empty, elem_of_empty. tauto.
  - apply Short_first_64_bits.
  - intros e He. split.
    + destruct (startup_stops_at_conflict a e He)
        as (a' & evs & Hs & Hev & Hq & _).
      exists a', evs. auto.
    + intros Hstart (Honce & Hstop & Hstatus).
      unfold Start. rewrite Hstart.
      set (a0 := mkApp _ _ _ _ _ true _ _ _ _).
      destruct (startup_stops_at_conflict a0 e He)
        as (a1 & evs & Hs & Hev & Hq & Hso & Hto & Hst & Hex).
      rewrite Hs. unfold stopWithErr.
      simpl in Hto, Hst, Hex, Hev.
      rewrite Hto, Honce, Hex, Hstatus, Hst, Hstop. simpl.
      eexists _, evs. split; [reflexivity|]. simpl. auto.
Qed.

End AppProperties.

(** ** The model *)

Section ModelProperties.
Import protocol config model.

(** *** Requests *)

(** C4. Request returns an error when the device does not share the
    folder, when the name does not exist in the folder, when the name has a
    ".." component, when the offset is negative, when the size is zero or
    negative, and when the range asked for ends beyond the stored file;
    otherwise it returns the bytes asked for, as they are on the local
    disk. *)
Theorem Request_validates (c : Configuration) (disk : Disk) (P : DeviceID)
    (F N : string) (size offset : Z) :
  let r := Request c disk P F N size offset in
  (shares c F P = false -> rejected r) /\
  (readFile disk F N = None -> rejected r) /\
  (hasDotDot N = true -> rejected r) /\
  (offset < 0 -> rejected r) /\
  (size <= 0 -> rejected r) /\
  (forall data, readFile disk F N = Some data ->
     Z.of_nat (length data) < offset + size -> rejected r) /\
  (forall data,
     wf_Disk disk ->
     shares c F P = true -> readFile disk F N = Some data ->
     0 <= offset -> 0 < size -> offset + size <= Z.of_nat (length data) ->
     r = inr (take (Z.to_nat size) (drop (Z.to_nat offset) data))).
Proof.
  cbv zeta. unfold Request, shares, safePath.
  repeat split.
  - intros H. destruct (_ || _); [exact I|].
    destruct (lookupFolder c F) as [fcfg|]; [|exact I].
    rewrite H. exact I.
  - intros H. destruct (_ || _); [exact I|].
    destruct (lookupFolder c F) as [fcfg|]; [|exact I].
    destruct (negb (SharedWith fcfg P)); [exact I|].
    destruct (negb _); [exact I|]. rewrite H. exact I.
  - intros H. destruct (_ || _); [exact I|].
    destruct (lookupFolder c F) as [fcfg|]; [|exact I].
    destruct (negb (SharedWith fcfg P)); [exact I|].
    rewrite H. exact I.
  - intros H. apply Z.ltb_lt in H. rewrite H, orb_true_r. exact I.
  - intros H. apply Z.leb_le in H. rewrite H. exact I.
  - intros data Hd Hlen. destruct (_ || _); [exact I|].
    destruct (lookupFolder c F) as [fcfg|]; [|exact I].
    destruct (negb (SharedWith fcfg P)); [exact I|].
    destruct (negb _); [exact I|]. rewrite Hd.
    apply Z.ltb_lt in Hlen. rewrite Hlen. exact I.
  - intros data Hwf Hs Hd Hoff Hsize Hlen.
    pose proof (Hwf F N data Hd) as Hsafe. unfold safePath in Hsafe.
    replace (size <=? 0) with false by (symmetry; apply Z.leb_gt; lia).
    replace (offset <? 0) with false by (symmetry; apply Z.ltb_ge; lia).
    simpl. destruct (lookupFolder c F) as [fcfg|]; [|discriminate].
    rewrite Hs, Hsafe, Hd. simpl.
    replace (Z.of_nat (length data) <? offset + size) with false
      by (symmetry; apply Z.ltb_ge; lia).
    reflexivity.
Qed.

(** *** Scanning *)

Lemma ScanFolder_lookup selfShort window (files : gmap string Stat)
    (local : gmap string FileInfo) name :
  ScanFolder selfShort window files local !! name =
  scanEntry selfShort (window * second) name (local !! name) (files !! name).
Proof.
  unfold ScanFolder. rewrite map_lookup_imap, lookup_merge.
  destruct (local !! name), (files !! name); reflexivity.
Qed.

Lemma Chtimes_lookup (files : gmap string Stat) name st t :
  files !! name = Some st ->
  Chtimes files name t !! name =
  Some (mkStat t (st_Size st) (st_Mode st) (st_Blocks st)).
Proof. intros H. unfold Chtimes. rewrite H. apply lookup_insert_eq. Qed.

(** C7. With ModTimeWindowS = 2, for a file scanned at version v: after its
    modification time alone is moved by +1 s a rescan leaves its FileInfo,
    and so its version v, as it is; after it is moved by +2 s, a rescan
    (directly, or following the rescan at +1 s) commits version
    v.update(self.short). *)
Theorem ModTimeWindow_two_seconds (selfShort : ShortID)
    (files : gmap string Stat) (local : gmap string FileInfo)
    (name : string) (st : Stat) (cur : FileInfo) :
  files !! name = Some st -> local !! name = Some cur -> scanned cur st ->
  let plus1 := Chtimes files name (st_ModTime st + 1 * second) in
  let plus2 := Chtimes files name (st_ModTime st + 2 * second) in
  let local1 := ScanFolder selfShort 2 plus1 local in
  local1 !! name = Some cur /\
  fi_Version <$> (ScanFolder selfShort 2 plus2 local !! name) =
    Some (Update (fi_Version cur) selfShort) /\
  fi_Version <$> (ScanFolder selfShort 2 plus2 local1 !! name) =
    Some (Update (fi_Version cur) selfShort).
Proof.
  intros Hf Hl (Hdel & Hmod & Hsize & Hperm). cbv zeta.
  assert (H1 : ScanFolder selfShort 2 (Chtimes files name (st_ModTime st + 1 * second))
                 local !! name = Some cur).
  { rewrite ScanFolder_lookup, (Chtimes_lookup _ _ _ _ Hf), Hl. simpl.
    unfold unchanged, ModTimeEqual. simpl.
    rewrite Hdel, Hmod, Hsize, Hperm, !Z.eqb_refl. simpl.
    replace (Z.abs _ <? _) with true; [rewrite orb_true_r; reflexivity|].
    symmetry. apply Z.ltb_lt. unfold second. lia. }
  assert (H2 : forall loc, loc !! name = Some cur ->
            fi_Version <$>
              (ScanFolder selfShort 2 (Chtimes files name (st_ModTime st + 2 * second))
                 loc !! name) = Some (Update (fi_Version cur) selfShort)).
  { intros loc Hloc.
    rewrite ScanFolder_lookup, (Chtimes_lookup _ _ _ _ Hf), Hloc. simpl.
    unfold unchanged, ModTimeEqual. simpl.
    rewrite Hdel, Hmod. simpl.
    replace (_ =? _) with false by (symmetry; apply Z.eqb_neq; unfold second; lia).
    replace (Z.abs _ <? _) with false
      by (symmetry; apply Z.ltb_ge; unfold second; lia).
    reflexivity. }
  split; [exact H1 | split; [apply H2, Hl | apply H2, H1]].
Qed.

End ModelProperties.

(** *** Introducer *)

Section Introducer.
Import protocol config model.

Variable sanitizePath : string -> string.
Variable entries : gset string.
Variable self : DeviceID.

Lemma lookupDevice_Some c id d :
  lookupDevice c id = Some d -> d ∈ cfg_Devices c /\ dev_DeviceID d = id.
Proof.
  intros H. apply List.find_some in H as [Hin Heq].
  apply bool_decide_eq_true in Heq. split; [apply list_elem_of_In|]; assumption.
Qed.

Lemma lookupFolder_Some c id f :
  lookupFolder c id = Some f -> f ∈ cfg_Folders c /\ fld_ID f = id.
Proof.
  intros H. apply List.find_some in H as [Hin Heq].
  apply bool_decide_eq_true in Heq. split; [apply list_elem_of_In|]; assumption.
Qed.

Lemma replaceFolder_elem fs : forall fld fs' F,
  replaceFolder fs fld = Some fs' -> F ∈ fs' -> F = fld \/ F ∈ fs.
Proof.
  induction fs as [|x fs IH]; intros fld fs' F H Hin; [discriminate|].
  simpl in H. destruct (decide (fld_ID x = fld_ID fld)).
  - injection H as <-. apply elem_of_cons in Hin as [->|Hin];
      [left; reflexivity | right; right; exact Hin].
  - destruct (replaceFolder fs fld) as [q|] eqn:Hq; [|discriminate].
    injection H as <-. apply elem_of_cons in Hin as [->|Hin].
    + right; left.
    + destruct (IH _ _ _ Hq Hin) as [->|H']; [left; reflexivity|].
      right; right; exact H'.
Qed.

Lemma setFolder_elem c fld F :
  F ∈ cfg_Folders (setFolder c fld) -> F = fld \/ F ∈ cfg_Folders c.
Proof.
  unfold setFolder. simpl.
  destruct (replaceFolder (cfg_Folders c) fld) as [fs'|] eqn:Hr; simpl.
  - apply replaceFolder_elem. exact Hr.
  - intros Hin. apply elem_of_app in Hin as [Hin|Hin]; [right; exact Hin|].
    apply list_elem_of_singleton in Hin. left; exact Hin.
Qed.

Variable P D : DeviceID.
Variable fid : string.

Hypothesis D_not_P : D <> P.
Hypothesis D_not_self : D <> self.

Local Abbreviation brought_by_P := (brought_by P D fid).

Lemma brought_setFolder c fcfg fd0 :
  brought_by_P c -> fcfg ∈ cfg_Folders c ->
  (fd_DeviceID fd0 = D -> fd_IntroducedBy fd0 = P) ->
  brought_by_P (setFolder c (set_fld_Devices fcfg (fld_Devices fcfg ++ [fd0]))).
Proof.
  intros [HF HD] Hin Hfd0. split; [|exact HD].
  intros F fd HFin Hid Hfd HfdD.
  apply setFolder_elem in HFin as [->|HFin]; [|eapply HF; eassumption].
  simpl in Hid, Hfd. apply elem_of_app in Hfd as [Hfd|Hfd].
  - eapply HF; eassumption.
  - apply list_elem_of_singleton in Hfd as ->. apply Hfd0, HfdD.
Qed.

Lemma brought_handleAutoAccepts es c deviceCfg folder :
  dev_DeviceID deviceCfg = P -> brought_by_P c ->
  brought_by_P (handleAutoAccepts sanitizePath self es c deviceCfg folder).2.
Proof.
  intros HP Hb. unfold handleAutoAccepts.
  destruct (lookupFolder c (pf_ID folder)) as [fcfg|] eqn:Hl.
  - destruct (SharedWith fcfg (dev_DeviceID deviceCfg)); [exact Hb|].
    apply lookupFolder_Some in Hl as [Hin _].
    apply brought_setFolder; [exact Hb | exact Hin|].
    simpl. rewrite HP. intros Heq. destruct D_not_P. symmetry. exact Heq.
  - destruct (List.find _ _) as [name|]; [|exact Hb].
    cbn [snd].
    destruct Hb as [HF HD]. split; [|exact HD].
    intros F fd HFin Hid Hfd HfdD.
    apply setFolder_elem in HFin as [->|HFin]; [|eapply HF; eassumption].
    simpl in Hfd. rewrite HP in Hfd.
    apply elem_of_cons in Hfd as [->|Hfd]; [destruct D_not_P; symmetry; exact HfdD|].
    apply list_elem_of_singleton in Hfd as ->.
    destruct D_not_self. symmetry. exact HfdD.
Qed.

Lemma brought_introduceInto introducerCfg folderID c device :
  dev_DeviceID introducerCfg = P -> brought_by_P c ->
  brought_by_P (introduceInto self introducerCfg folderID c device).
Proof.
  intros HP Hb. unfold introduceInto.
  destruct (bool_decide (pd_ID device = self)); [exact Hb|].
  set (c1 := match lookupDevice c (pd_ID device) with
             | Some _ => c
             | None => introduceDevice c device introducerCfg
             end).
  assert (Hb1 : brought_by_P c1).
  { subst c1. destruct (lookupDevice c (pd_ID device)); [exact Hb|].
    destruct Hb as [HF HD]. split; [exact HF|].
    intros d Hd HdD. simpl in Hd. apply elem_of_app in Hd as [Hd|Hd];
      [apply HD; assumption|].
    apply list_elem_of_singleton in Hd as ->. simpl. exact HP. }
  destruct (lookupFolder c1 folderID) as [fcfg|] eqn:Hl; [|exact Hb1].
  destruct (SharedWith fcfg (pd_ID device)); [exact Hb1|].
  apply lookupFolder_Some in Hl as [Hin _].
  apply brought_setFolder; [exact Hb1 | exact Hin|].
  simpl. intros _. exact HP.
Qed.

Lemma brought_handleIntroductions introducerCfg cm c :
  dev_DeviceID introducerCfg = P -> brought_by_P c ->
  brought_by_P (handleIntroductions self c introducerCfg cm).
Proof.
  intros HP. unfold handleIntroductions. revert c.
  induction (cc_Folders cm) as [|folder fs IH]; intros c Hb; simpl; [exact Hb|].
  apply IH. destruct (lookupFolder c (pf_ID folder)); [|exact Hb].
  clear IH. revert c Hb. induction (pf_Devices folder) as [|dv dvs IH];
    intros c Hb; simpl; [exact Hb|].
  apply IH, brought_introduceInto; assumption.
Qed.

Lemma brought_autoAccept deviceCfg fs : forall es c,
  dev_DeviceID deviceCfg = P -> brought_by_P c ->
  brought_by_P (autoAccepts sanitizePath self es c deviceCfg fs).2.
Proof.
  unfold autoAccepts.
  induction fs as [|folder fs IH]; intros es c HP Hb; simpl; [exact Hb|].
  destruct (handleAutoAccepts sanitizePath self es c deviceCfg folder)
    as [es1 c1] eqn:Hh.
  apply IH; [exact HP|].
  change c1 with (es1, c1).2. rewrite <- Hh.
  apply brought_handleAutoAccepts; assumption.
Qed.

Lemma SharedWith_false f device :
  (forall fd, fd ∈ fld_Devices f -> fd_DeviceID fd <> device) ->
  SharedWith f device = false.
Proof.
  intros H. unfold SharedWith. apply not_true_is_false. intros Hex.
  apply existsb_exists in Hex as (fd & Hin & Heq).
  apply bool_decide_eq_true in Heq. apply list_elem_of_In in Hin.
  exact (H fd Hin Heq).
Qed.

(** C2. Let the local configuration flag P as introducer without
    SkipIntroductionRemovals, and let P be the introducer of D wherever D is
    in folder F and in the device roster.  When P's ClusterConfig does not
    list D in F, then after its dispatch no folder with F's ID is shared with
    D; and if after it no folder at all retains D, D is not in the device
    roster any more. *)
Theorem introducer_removal (c : Configuration) (introducerCfg : DeviceConfiguration)
    (cm : protocol.ClusterConfig) :
  lookupDevice c P = Some introducerCfg ->
  dev_Introducer introducerCfg = true ->
  dev_SkipIntroductionRemovals introducerCfg = false ->
  brought_by_P c ->
  lists cm fid D = false ->
  let c' := model.ClusterConfig sanitizePath entries self c P cm in
  (forall F, F ∈ cfg_Folders c' -> fld_ID F = fid -> SharedWith F D = false) /\
  (retained (cfg_Folders c') D = false -> lookupDevice c' D = None).
Proof.
  intros Hl Hintro Hskip Hb Hlists. cbv zeta.
  unfold model.ClusterConfig. rewrite Hl, Hintro, Hskip.
  pose proof (lookupDevice_Some _ _ _ Hl) as [_ HP].
  set (c1 := if dev_AutoAcceptFolders introducerCfg then _ else c).
  assert (Hb1 : brought_by_P c1).
  { subst c1. destruct (dev_AutoAcceptFolders introducerCfg); [|exact Hb].
    apply brought_autoAccept; assumption. }
  set (c2 := handleIntroductions self c1 introducerCfg cm).
  assert (Hb2 : brought_by_P c2)
    by (apply brought_handleIntroductions; assumption).
  clearbody c2. clear c1 Hb1 Hb Hl.
  destruct Hb2 as [HF HD]. unfold handleDeintroductions. simpl. split.
  - intros F HFin Hid.
    apply list_elem_of_fmap in HFin as (F2 & -> & HF2).
    simpl in Hid. apply SharedWith_false. simpl.
    intros fd Hfd HfdD. apply list_elem_of_In, filter_In in Hfd as [Hfd Hkeep].
    apply list_elem_of_In in Hfd.
    rewrite (HF F2 fd HF2 Hid Hfd HfdD), HP, HfdD, Hid, Hlists in Hkeep.
    rewrite bool_decide_eq_true_2 in Hkeep by reflexivity. discriminate.
  - intros Hret. rewrite HP in Hret. unfold lookupDevice. simpl.
    destruct (List.find _ _) as [d|] eqn:Hfind; [|reflexivity].
    apply List.find_some in Hfind as [Hin HdD].
    apply bool_decide_eq_true in HdD.
    apply filter_In in Hin as [Hin Hkeep]. apply list_elem_of_In in Hin.
    rewrite (HD d Hin HdD), HP, HdD, Hret in Hkeep.
    rewrite bool_decide_eq_true_2 in Hkeep by reflexivity. discriminate.
Qed.

End Introducer.

(** *** Auto-accept *)

Section AutoAcceptProperties.
Import protocol config model.

Variable sanitizePath : string -> string.
Variable entries : gset string.
Variable self : DeviceID.

Lemma find_replaceFolder fs : forall fld fs' id,
  replaceFolder fs fld = Some fs' ->
  List.find (hasID id) fs' =
  if decide (fld_ID fld = id) then Some fld else List.find (hasID id) fs.
Proof.
  induction fs as [|x fs IH]; intros fld fs' id H; [discriminate|].
  simpl in H. destruct (decide (fld_ID x = fld_ID fld)) as [Hx|Hx].
  - injection H as <-. simpl. unfold hasID at 1 3.
    destruct (decide (fld_ID fld = id)) as [Hf|Hf].
    + rewrite bool_decide_eq_true_2 by exact Hf. reflexivity.
    + rewrite !bool_decide_eq_false_2 by congruence. reflexivity.
  - destruct (replaceFolder fs fld) as [q|] eqn:Hq; [|discriminate].
    injection H as <-. simpl. rewrite (IH _ _ id Hq).
    unfold hasID at 1 3. destruct (decide (fld_ID fld = id)) as [Hf|Hf];
      [|reflexivity].
    rewrite bool_decide_eq_false_2 by congruence. reflexivity.
Qed.

Lemma find_replaceFolder_None fs : forall fld,
  replaceFolder fs fld = None -> List.find (hasID (fld_ID fld)) fs = None.
Proof.
  induction fs as [|x fs IH]; intros fld H; [reflexivity|].
  simpl in *. destruct (decide (fld_ID x = fld_ID fld)); [discriminate|].
  destruct (replaceFolder fs fld) eqn:Hq; [discriminate|].
  unfold hasID at 1. rewrite bool_decide_eq_false_2 by assumption.
  apply IH, Hq.
Qed.

Lemma find_app_hasID id fs gs :
  List.find (hasID id) (fs ++ gs) =
  match List.find (hasID id) fs with
  | Some f => Some f
  | None => List.find (hasID id) gs
  end.
Proof.
  induction fs as [|x fs IH]; simpl; [reflexivity|].
  destruct (hasID id x); [reflexivity | exact IH].
Qed.

Lemma lookupFolder_setFolder c fld id :
  lookupFolder (setFolder c fld) id =
  if decide (fld_ID fld = id) then Some fld else lookupFolder c id.
Proof.
  unfold lookupFolder, setFolder. simpl. fold (hasID id).
  destruct (replaceFolder (cfg_Folders c) fld) as [fs'|] eqn:Hr; simpl.
  - apply find_replaceFolder. exact Hr.
  - rewrite find_app_hasID. apply find_replaceFolder_None in Hr.
    destruct (decide (fld_ID fld = id)) as [<-|Hne].
    + rewrite Hr. simpl. unfold hasID.
      rewrite bool_decide_eq_true_2 by reflexivity. reflexivity.
    + destruct (List.find (hasID id) (cfg_Folders c)); [reflexivity|].
      simpl. unfold hasID. rewrite bool_decide_eq_false_2 by exact Hne.
      reflexivity.
Qed.

Lemma lookupFolder_ID c id f : lookupFolder c id = Some f -> fld_ID f = id.
Proof.
  intros H. apply List.find_some in H as [_ H].
  apply bool_decide_eq_true in H. exact H.
Qed.

Lemma SharedWith_elem f fd :
  fd ∈ fld_Devices f -> SharedWith f (fd_DeviceID fd) = true.
Proof.
  intros H. unfold SharedWith. apply existsb_exists. exists fd.
  split; [apply list_elem_of_In, H | apply bool_decide_eq_true; reflexivity].
Qed.

Variable P : DeviceID.
Variable id : string.

Hypothesis P_not_empty : P <> EmptyDeviceID.

Local Abbreviation accepted := (model.accepted P id).
Local Abbreviation unknown := (model.unknown id).

Lemma accepted_append p c fcfg fd :
  accepted p c -> lookupFolder c (fld_ID fcfg) = Some fcfg ->
  accepted p (setFolder c (set_fld_Devices fcfg (fld_Devices fcfg ++ [fd]))).
Proof.
  intros (g & Hg & Hp & Hin) Hl. unfold accepted.
  rewrite lookupFolder_setFolder. simpl.
  destruct (decide (fld_ID fcfg = id)) as [Heq|Hne].
  - rewrite Heq in Hl. rewrite Hl in Hg. injection Hg as ->.
    eexists. split; [reflexivity|]. simpl. split; [exact Hp|].
    apply elem_of_app. left. exact Hin.
  - exists g. auto.
Qed.

Lemma lookupFolder_self c i f : lookupFolder c i = Some f ->
  lookupFolder c (fld_ID f) = Some f.
Proof. intros H. rewrite (lookupFolder_ID _ _ _ H). exact H. Qed.

Local Abbreviation handle := (handleAutoAccepts sanitizePath self).
Local Abbreviation autoAccepts := (model.autoAccepts sanitizePath self).

Lemma autoAccepts_cons es c deviceCfg f fs :
  autoAccepts es c deviceCfg (f :: fs) =
  autoAccepts (handle es c deviceCfg f).1 (handle es c deviceCfg f).2
    deviceCfg fs.
Proof.
  unfold model.autoAccepts. simpl.
  destruct (handle es c deviceCfg f). reflexivity.
Qed.

Lemma autoAccepts_app es c deviceCfg fs gs :
  autoAccepts es c deviceCfg (fs ++ gs) =
  autoAccepts (autoAccepts es c deviceCfg fs).1
    (autoAccepts es c deviceCfg fs).2 deviceCfg gs.
Proof.
  unfold model.autoAccepts. rewrite foldl_app.
  destruct (foldl _ (es, c) fs). reflexivity.
Qed.

Lemma accepted_handleAutoAccepts p es c deviceCfg folder :
  dev_DeviceID deviceCfg = P -> accepted p c ->
  accepted p (handle es c deviceCfg folder).2.
Proof.
  intros HP Hacc. unfold handleAutoAccepts.
  destruct (lookupFolder c (pf_ID folder)) as [fcfg|] eqn:Hl.
  - destruct (SharedWith fcfg (dev_DeviceID deviceCfg)); [exact Hacc|].
    apply accepted_append; [exact Hacc|]. eapply lookupFolder_self, Hl.
  - destruct (List.find _ _) as [name|]; [|exact Hacc].
    cbn [snd].
    destruct Hacc as (g & Hg & Hp & Hin). exists g.
    rewrite lookupFolder_setFolder. simpl.
    destruct (decide (pf_ID folder = id)) as [Heq|Hne]; [|auto].
    rewrite Heq in Hl. congruence.
Qed.

Lemma accepted_autoAccept p deviceCfg fs : forall es c,
  dev_DeviceID deviceCfg = P -> accepted p c ->
  accepted p (autoAccepts es c deviceCfg fs).2.
Proof.
  induction fs as [|folder fs IH]; intros es c HP Hacc; [exact Hacc|].
  rewrite autoAccepts_cons.
  apply IH; [exact HP|]. apply accepted_handleAutoAccepts; assumption.
Qed.

(** The names that exist are kept, and a name comes to exist only as the
    directory of a folder that is accepted. *)
Lemma handleAutoAccepts_keeps es c deviceCfg folder n :
  n ∈ es -> n ∈ (handle es c deviceCfg folder).1.
Proof.
  intros Hn. unfold handleAutoAccepts.
  destruct (lookupFolder c (pf_ID folder)).
  - destruct (SharedWith _ _); exact Hn.
  - destruct (List.find _ _); [|exact Hn].
    cbn [fst]. apply elem_of_union. right. exact Hn.
Qed.

Lemma handleAutoAccepts_takes es c deviceCfg folder n :
  n ∈ (handle es c deviceCfg folder).1 ->
  n ∈ es \/ n = sanitizePath (pf_Label folder) \/
  n = sanitizePath (pf_ID folder).
Proof.
  unfold handleAutoAccepts.
  destruct (lookupFolder c (pf_ID folder)).
  - destruct (SharedWith _ _); intros Hn; left; exact Hn.
  - destruct (List.find _ _) as [name|] eqn:Hfind; [|intros Hn; left; exact Hn].
    cbn [fst]. intros Hn. apply elem_of_union in Hn as [Hn|Hn];
      [|left; exact Hn].
    apply elem_of_singleton in Hn as ->. right.
    apply List.find_some in Hfind as [Hin _].
    destruct Hin as [<-|[<-|[]]]; [left | right]; reflexivity.
Qed.

Lemma autoAccepts_keeps deviceCfg fs n : forall es c,
  n ∈ es -> n ∈ (autoAccepts es c deviceCfg fs).1.
Proof.
  induction fs as [|f fs IH]; intros es c Hn; [exact Hn|].
  rewrite autoAccepts_cons. apply IH, handleAutoAccepts_keeps, Hn.
Qed.

Lemma autoAccepts_takes deviceCfg fs n : forall es c,
  n ∈ (autoAccepts es c deviceCfg fs).1 ->
  n ∈ es \/
  exists f, f ∈ fs /\
    (n = sanitizePath (pf_Label f) \/ n = sanitizePath (pf_ID f)).
Proof.
  induction fs as [|f fs IH]; intros es c Hn; [left; exact Hn|].
  rewrite autoAccepts_cons in Hn.
  destruct (IH _ _ Hn) as [Hn1 | (g & Hg & Hng)].
  - destruct (handleAutoAccepts_takes _ _ _ _ _ Hn1) as [H|H];
      [left; exact H|].
    right. exists f. split; [left | exact H].
  - right. exists g. split; [right; exact Hg | exact Hng].
Qed.

Lemma accepted_introduceInto p introducerCfg folderID c device :
  accepted p c ->
  accepted p (introduceInto self introducerCfg folderID c device).
Proof.
  intros Hacc. unfold introduceInto.
  destruct (bool_decide (pd_ID device = self)); [exact Hacc|].
  set (c1 := match lookupDevice c (pd_ID device) with
             | Some _ => c
             | None => introduceDevice c device introducerCfg
             end).
  assert (Hacc1 : accepted p c1).
  { subst c1. destruct (lookupDevice c (pd_ID device)); exact Hacc. }
  destruct (lookupFolder c1 folderID) as [fcfg|] eqn:Hl; [|exact Hacc1].
  destruct (SharedWith fcfg (pd_ID device)); [exact Hacc1|].
  apply accepted_append; [exact Hacc1|]. eapply lookupFolder_self, Hl.
Qed.

Lemma accepted_handleIntroductions p introducerCfg cm c :
  accepted p c -> accepted p (handleIntroductions self c introducerCfg cm).
Proof.
  unfold handleIntroductions. revert c.
  induction (cc_Folders cm) as [|folder fs IH]; intros c Hacc; simpl;
    [exact Hacc|].
  apply IH. destruct (lookupFolder c (pf_ID folder)); [|exact Hacc].
  clear IH. revert c Hacc. induction (pf_Devices folder) as [|dv dvs IH];
    intros c Hacc; simpl; [exact Hacc|].
  apply IH, accepted_introduceInto, Hacc.
Qed.

Lemma lookupFolder_unshare introducer cm c :
  lookupFolder
    (handleDeintroductions c introducer cm) id =
  unshare (dev_DeviceID introducer) cm <$> lookupFolder c id.
Proof.
  unfold lookupFolder, handleDeintroductions. simpl.
  induction (cfg_Folders c) as [|x fs IH]; simpl; [reflexivity|].
  destruct (bool_decide (fld_ID x = id)); [reflexivity | exact IH].
Qed.

Lemma accepted_handleDeintroductions p introducerCfg cm c :
  dev_DeviceID introducerCfg = P ->
  accepted p c -> accepted p (handleDeintroductions c introducerCfg cm).
Proof.
  intros HP (g & Hg & Hp & Hin). unfold accepted.
  rewrite lookupFolder_unshare, Hg. simpl.
  eexists. split; [reflexivity|]. simpl. split; [exact Hp|].
  apply list_elem_of_In, filter_In. split; [apply list_elem_of_In, Hin|].
  simpl. rewrite HP.
  rewrite bool_decide_eq_false_2 by (intros Heq; apply P_not_empty; auto).
  reflexivity.
Qed.

Lemma unknown_handleAutoAccepts es c deviceCfg folder :
  unknown c ->
  pf_ID folder <> id \/
  (sanitizePath (pf_Label folder) ∈ es /\
   sanitizePath (pf_ID folder) ∈ es) ->
  unknown (handle es c deviceCfg folder).2.
Proof.
  intros Hu Hcase. unfold handleAutoAccepts, unknown in *.
  destruct (lookupFolder c (pf_ID folder)) as [fcfg|] eqn:Hl.
  - pose proof (lookupFolder_ID _ _ _ Hl) as Hid.
    assert (Hne : fld_ID fcfg <> id) by (intros Heq; congruence).
    destruct (SharedWith fcfg (dev_DeviceID deviceCfg)); [exact Hu|].
    cbn [snd]. rewrite lookupFolder_setFolder. simpl.
    destruct (decide (fld_ID fcfg = id)); [contradiction | exact Hu].
  - destruct Hcase as [Hne | [Hlab Hid]].
    + destruct (List.find _ _); [|exact Hu].
      cbn [snd]. rewrite lookupFolder_setFolder. simpl.
      destruct (decide (pf_ID folder = id)); [contradiction | exact Hu].
    + simpl. rewrite !bool_decide_eq_true_2 by assumption. exact Hu.
Qed.

Lemma unknown_introduceInto introducerCfg folderID c device :
  folderID <> id -> unknown c ->
  unknown (introduceInto self introducerCfg folderID c device).
Proof.
  intros Hne Hu. unfold introduceInto, unknown in *.
  destruct (bool_decide (pd_ID device = self)); [exact Hu|].
  set (c1 := match lookupDevice c (pd_ID device) with
             | Some _ => c
             | None => introduceDevice c device introducerCfg
             end).
  assert (Hu1 : lookupFolder c1 id = None).
  { subst c1. destruct (lookupDevice c (pd_ID device)); exact Hu. }
  destruct (lookupFolder c1 folderID) as [fcfg|] eqn:Hl; [|exact Hu1].
  destruct (SharedWith fcfg (pd_ID device)); [exact Hu1|].
  rewrite lookupFolder_setFolder. simpl.
  rewrite (lookupFolder_ID _ _ _ Hl).
  destruct (decide (folderID = id)); [contradiction | exact Hu1].
Qed.

Lemma unknown_handleIntroductions introducerCfg cm c :
  unknown c -> unknown (handleIntroductions self c introducerCfg cm).
Proof.
  unfold handleIntroductions. revert c.
  induction (cc_Folders cm) as [|folder fs IH]; intros c Hu; simpl;
    [exact Hu|].
  apply IH. destruct (lookupFolder c (pf_ID folder)) as [f|] eqn:Hl;
    [|exact Hu].
  assert (Hne : pf_ID folder <> id).
  { intros Heq. rewrite Heq in Hl. unfold unknown in Hu. congruence. }
  clear IH Hl. revert c Hu. induction (pf_Devices folder) as [|dv dvs IH];
    intros c Hu; simpl; [exact Hu|].
  apply IH, unknown_introduceInto; assumption.
Qed.

Lemma Options_handleAutoAccepts es c deviceCfg folder :
  cfg_Options (handle es c deviceCfg folder).2 = cfg_Options c.
Proof.
  unfold handleAutoAccepts.
  destruct (lookupFolder c (pf_ID folder)).
  - destruct (SharedWith _ _); reflexivity.
  - destruct (List.find _ _); reflexivity.
Qed.

(** The folders listed before the one looked at leave its ID unknown. *)
Lemma autoAccept_before deviceCfg pre : forall es c,
  unknown c -> id ∉ (pf_ID <$> pre) ->
  unknown (autoAccepts es c deviceCfg pre).2 /\
  cfg_Options (autoAccepts es c deviceCfg pre).2 = cfg_Options c.
Proof.
  induction pre as [|f pre IH]; intros es c Hu Hnin; [split; auto|].
  rewrite fmap_cons in Hnin. apply not_elem_of_cons in Hnin as [Hne Hnin].
  rewrite autoAccepts_cons.
  destruct (IH (handle es c deviceCfg f).1 (handle es c deviceCfg f).2)
    as [Hu1 Ho1]; [|exact Hnin|].
  - apply unknown_handleAutoAccepts; [exact Hu | left; congruence].
  - split; [exact Hu1|]. rewrite Ho1. apply Options_handleAutoAccepts.
Qed.

(** Folders that find both their names taken, each when the dispatch
    comes to it, leave the ID unknown. *)
Lemma autoAccept_taken deviceCfg fs : forall es c,
  unknown c ->
  (forall fs1 f fs2, fs = fs1 ++ f :: fs2 -> pf_ID f = id ->
     sanitizePath (pf_Label f) ∈ (autoAccepts es c deviceCfg fs1).1 /\
     sanitizePath (pf_ID f) ∈ (autoAccepts es c deviceCfg fs1).1) ->
  unknown (autoAccepts es c deviceCfg fs).2.
Proof.
  induction fs as [|f fs IH]; intros es c Hu Hall; [exact Hu|].
  rewrite autoAccepts_cons. apply IH.
  - apply unknown_handleAutoAccepts; [exact Hu|].
    destruct (decide (pf_ID f = id)) as [Heq|Hne]; [right | left; exact Hne].
    apply (Hall [] f fs eq_refl Heq).
  - intros fs1 g fs2 -> Hgid.
    rewrite <- autoAccepts_cons.
    apply (Hall (f :: fs1) g fs2 eq_refl Hgid).
Qed.

(** The rule at the folder itself: the first free name of label and ID. *)
Lemma handleAutoAccepts_new es c deviceCfg folder name :
  dev_DeviceID deviceCfg = P -> pf_ID folder = id -> unknown c ->
  List.find (fun n => negb (bool_decide (n ∈ es)))
    [sanitizePath (pf_Label folder); sanitizePath (pf_ID folder)] = Some name ->
  accepted (Join (opt_DefaultFolderPath (cfg_Options c)) name)
    (handle es c deviceCfg folder).2.
Proof.
  intros HP Hid Hu Hfind. unfold handleAutoAccepts, unknown in *.
  rewrite Hid, Hu. rewrite Hid in Hfind. rewrite Hfind. cbn [snd].
  unfold accepted. rewrite lookupFolder_setFolder. simpl.
  destruct (decide (id = id)); [|contradiction].
  eexists. split; [reflexivity|]. simpl. split; [reflexivity|].
  rewrite HP. left.
Qed.

(** C5 (amended). Let the local configuration flag P, whose device ID is
    not the all-zero one, with AutoAcceptFolders, and let P's ClusterConfig
    list a folder whose ID is unknown locally (the first it lists with that
    ID).  Take the names that exist in the default folder directory when the
    dispatch comes to that folder: they include those that existed before,
    and any other is the sanitised label or ID of a folder listed earlier.
    After the dispatch the folder is configured and shared with P, at the
    directory named by its sanitised label when no entry of that name
    exists, and at the directory named by its sanitised ID when an entry of
    the label's name exists and none of the ID's; when entries of both names
    exist, and so at every later folder listed with that ID when the
    dispatch comes to it, no folder is created. *)
Theorem autoaccept_prefers_label_then_id (c : Configuration)
    (deviceCfg : DeviceConfiguration) (cm : protocol.ClusterConfig)
    (pre post : list protocol.Folder) (folder : protocol.Folder) :
  lookupDevice c P = Some deviceCfg ->
  dev_AutoAcceptFolders deviceCfg = true ->
  lookupFolder c id = None ->
  cc_Folders cm = pre ++ folder :: post ->
  pf_ID folder = id -> id ∉ (pf_ID <$> pre) ->
  let c' := model.ClusterConfig sanitizePath entries self c P cm in
  let dir := Join (opt_DefaultFolderPath (cfg_Options c)) in
  let es := entriesAt sanitizePath self entries c deviceCfg pre in
  let created name :=
    exists fcfg, lookupFolder c' id = Some fcfg /\
                 SharedWith fcfg P = true /\ fld_Path fcfg = dir name in
  (sanitizePath (pf_Label folder) ∉ es ->
   created (sanitizePath (pf_Label folder))) /\
  (sanitizePath (pf_Label folder) ∈ es ->
   sanitizePath (pf_ID folder) ∉ es ->
   created (sanitizePath (pf_ID folder))) /\
  ((forall post1 f post2,
      folder :: post = post1 ++ f :: post2 -> pf_ID f = id ->
      let es' :=
        entriesAt sanitizePath self entries c deviceCfg (pre ++ post1) in
      sanitizePath (pf_Label f) ∈ es' /\ sanitizePath (pf_ID f) ∈ es') ->
   lookupFolder c' id = None) /\
  (forall n, n ∈ entries -> n ∈ es) /\
  (forall n, n ∈ es ->
     n ∈ entries \/
     exists f, f ∈ pre /\
       (n = sanitizePath (pf_Label f) \/ n = sanitizePath (pf_ID f))).
Proof.
  intros Hl Haa Hu Hcm Hid Hpre. cbv zeta.
  pose proof (lookupDevice_Some _ _ _ Hl) as [_ HP].
  unfold model.ClusterConfig, entriesAt. rewrite Hl, Haa.
  assert (Hfinish : forall p c1,
    accepted p c1 ->
    exists fcfg,
      lookupFolder
        (if dev_Introducer deviceCfg
         then
           if dev_SkipIntroductionRemovals deviceCfg
           then handleIntroductions self c1 deviceCfg cm
           else handleDeintroductions
                  (handleIntroductions self c1 deviceCfg cm) deviceCfg cm
         else c1) id = Some fcfg /\
      SharedWith fcfg P = true /\ fld_Path fcfg = p).
  { intros p c1 Hacc.
    assert (Hacc' : accepted p
      (if dev_Introducer deviceCfg
       then
         if dev_SkipIntroductionRemovals deviceCfg
         then handleIntroductions self c1 deviceCfg cm
         else handleDeintroductions
                (handleIntroductions self c1 deviceCfg cm) deviceCfg cm
       else c1)).
    { destruct (dev_Introducer deviceCfg); [|exact Hacc].
      destruct (dev_SkipIntroductionRemovals deviceCfg).
      - apply accepted_handleIntroductions, Hacc.
      - apply accepted_handleDeintroductions; [exact HP|].
        apply accepted_handleIntroductions, Hacc. }
    destruct Hacc' as (g & Hg & Hp & Hin). exists g.
    split; [exact Hg | split; [|exact Hp]].
    apply (SharedWith_elem g (mkFolderDevice P EmptyDeviceID) Hin). }
  destruct (autoAccept_before deviceCfg pre entries c Hu Hpre) as [Hu1 Ho1].
  rewrite Hcm, autoAccepts_app, autoAccepts_cons.
  set (es := (autoAccepts entries c deviceCfg pre).1) in *.
  set (c1 := (autoAccepts entries c deviceCfg pre).2) in *.
  assert (Hcreate : forall name,
    List.find (fun n => negb (bool_decide (n ∈ es)))
      [sanitizePath (pf_Label folder); sanitizePath (pf_ID folder)] = Some name ->
    accepted (Join (opt_DefaultFolderPath (cfg_Options c)) name)
      (autoAccepts (handle es c1 deviceCfg folder).1
         (handle es c1 deviceCfg folder).2 deviceCfg post).2).
  { intros name Hfind. rewrite <- Ho1.
    apply accepted_autoAccept; [exact HP|].
    apply handleAutoAccepts_new; assumption. }
  split; [|split; [|split; [|split]]].
  - intros Hfree. apply Hfinish, Hcreate. simpl.
    rewrite bool_decide_eq_false_2 by exact Hfree. reflexivity.
  - intros Htaken Hfree. apply Hfinish, Hcreate. simpl.
    rewrite bool_decide_eq_true_2 by exact Htaken.
    rewrite bool_decide_eq_false_2 by exact Hfree. reflexivity.
  - intros Hall. rewrite <- autoAccepts_cons.
    assert (Hu2 : unknown (autoAccepts es c1 deviceCfg (folder :: post)).2).
    { apply autoAccept_taken; [exact Hu1|].
      intros post1 f post2 Hsplit Hfid.
      pose proof (Hall post1 f post2 Hsplit Hfid) as Hf.
      cbv zeta in Hf. unfold entriesAt in Hf.
      rewrite autoAccepts_app in Hf. exact Hf. }
    destruct (dev_Introducer deviceCfg); [|exact Hu2].
    destruct (dev_SkipIntroductionRemovals deviceCfg).
    + apply unknown_handleIntroductions, Hu2.
    + rewrite lookupFolder_unshare.
      pose proof (unknown_handleIntroductions deviceCfg cm _ Hu2) as Hu3.
      unfold unknown in Hu3. rewrite Hu3. reflexivity.
  - intros n Hn. apply autoAccepts_keeps, Hn.
  - intros n Hn. apply (autoAccepts_takes deviceCfg pre n entries c Hn).
Qed.

End AutoAcceptProperties.

(** ** The model tests, replayed *)

Section ModelTests.
Import protocol config model testdata.

(** [TestIntroducer]: an unknown device is introduced with the flags given
    for it. *)
Example TestIntroducer_introduces :
  let c := dispatch (introducerCfg (introducer device1) [] [] [])
             device1 (lists2 "folder1") in
  (dev_Introducer <$> lookupDevice c device2) = Some true /\
  (dev_SkipIntroductionRemovals <$> lookupDevice c device2) = Some true /\
  contains c "folder1" device2 (Some device1) = true.
Proof. vm_compute. repeat split. Qed.

(** A known device keeps its flags, leaves the folder it is no longer
    listed in and enters the one it is listed in. *)
Example TestIntroducer_moves :
  let c := dispatch
             (introducerCfg (introducer device1) [introduced device2 device1]
                [mkFolderDevice device2 device1] [])
             device1 (lists2 "folder2") in
  (dev_Introducer <$> lookupDevice c device2) = Some false /\
  contains c "folder1" device2 None = false /\
  contains c "folder2" device2 (Some device1) = true.
Proof. vm_compute. repeat split. Qed.

(** Listed nowhere any more, the device leaves both folders and the
    roster. *)
Example TestIntroducer_removes :
  let c := dispatch introducedCfg device1 (mkClusterConfig []) in
  hasDevice c device2 = false /\
  contains c "folder1" device2 None = false /\
  contains c "folder2" device2 None = false.
Proof. vm_compute. repeat split. Qed.

(** No removal when the peer is no introducer any more. *)
Example TestIntroducer_not_introducer :
  let c := dispatch
             (introducerCfg (device device1) [introduced device2 device1]
                [mkFolderDevice device2 device1]
                [mkFolderDevice device2 device1])
             device1 (mkClusterConfig []) in
  hasDevice c device2 = true /\
  contains c "folder1" device2 (Some device1) = true /\
  contains c "folder2" device2 (Some device1) = true.
Proof. vm_compute. repeat split. Qed.

(** No removal when SkipIntroductionRemovals is set. *)
Example TestIntroducer_skip_removals :
  let c := dispatch
             (introducerCfg
                (mkDevice device1 "" [] true true EmptyDeviceID false false 0 [])
                [introduced device2 device1]
                [mkFolderDevice device2 device1] [])
             device1 (lists2 "folder2") in
  hasDevice c device2 = true /\
  contains c "folder1" device2 (Some device1) = true /\
  contains c "folder2" device2 (Some device1) = true.
Proof. vm_compute. repeat split. Qed.

(** The device stays in the roster while a folder has it without this
    introducer, or through another one. *)
Example TestIntroducer_shared_otherwise :
  let c := dispatch
             (introducerCfg (introducer device1) [introduced device2 device1]
                [mkFolderDevice device2 device1]
                [mkFolderDevice device2 EmptyDeviceID])
             device1 (mkClusterConfig []) in
  let c' := dispatch
              (introducerCfg (introducer device1) [introduced device2 device1]
                 [mkFolderDevice device2 device1]
                 [mkFolderDevice device2 myID])
              device1 (mkClusterConfig []) in
  hasDevice c device2 = true /\
  contains c "folder1" device2 None = false /\
  contains c "folder2" device2 None = true /\
  hasDevice c' device2 = true /\
  contains c' "folder1" device2 None = false /\
  contains c' "folder2" device2 None = true.
Proof. vm_compute. repeat split. Qed.

(** [TestAutoAcceptRejected] and [TestAutoAcceptExistingFolder] *)
Example TestAutoAccept_rejected_and_existing :
  let cm := mkClusterConfig [mkPFolder "id" "id" []] in
  lookupFolder
    (dispatch (configuration [device myID; device device1] []) device1 cm)
    "id" = None /\
  let known :=
    configuration [device myID; autoAccepting device1]
      [mkFolder "id" "" "idOther" [] false 0 0] in
  (fld_Path <$> lookupFolder (dispatch known device1 cm) "id") = Some "idOther" /\
  contains (dispatch known device1 cm) "id" device1 None = true.
Proof. vm_compute. repeat split. Qed.

(** [TestAutoAcceptPrefersLabel], [TestAutoAcceptFallsBackToID],
    [TestAutoAcceptNameConflict] and [TestAutoAcceptMultipleFolders], with
    the directories the tests make beforehand. *)
Example TestAutoAccept_paths :
  let accept entries cm :=
    model.ClusterConfig sanitizePath entries myID defaultAutoAcceptCfg
      device1 cm in
  let cm := mkClusterConfig [mkPFolder "id" "label" []] in
  (fld_Path <$> lookupFolder (accept ∅ cm) "id") = Some "label" /\
  contains (accept ∅ cm) "id" device1 None = true /\
  (fld_Path <$> lookupFolder (accept {["label"]} cm) "id") = Some "id" /\
  contains (accept {["label"]} cm) "id" device1 None = true /\
  lookupFolder (accept {["label"; "id"]} cm) "id" = None /\
  let two :=
    mkClusterConfig [mkPFolder "id1" "id1" []; mkPFolder "id2" "id2" []] in
  contains (accept ∅ two) "id1" device1 None = true /\
  contains (accept ∅ two) "id2" device1 None = true.
Proof. vm_compute. repeat split. Qed.

(** [filepath.Join] and [filepath.Clean] on paths as the dispatch makes
    them, and on the cases of the rules of [Clean]. *)
Example Join_cases :
  Join "." "label" = "label" /\ Join "" "label" = "label" /\
  Join "/home/user/Sync" "label" = "/home/user/Sync/label" /\
  Join "Sync/" "label" = "Sync/label" /\ Join "." "" = "." /\
  Join "" "" = "" /\
  Clean "" = "." /\ Clean "/" = "/" /\ Clean "//a//b//" = "/a/b" /\
  Clean "a/b/../c/./d/" = "a/c/d" /\ Clean "a/../../b" = "../b" /\
  Clean "../../a" = "../../a" /\ Clean "/../a" = "/a".
Proof. vm_compute. repeat split. Qed.

(** [TestSanitizePath], case by case. *)
Example TestSanitizePath_cases :
  sanitizePath "" = "" /\
  sanitizePath "foo" = "foo" /\
  sanitizePath "\*/foo\?/bar[{!@$%^&*#()}]" = "foo bar ()" /\
  sanitizePath "Räksmörgås" = "Räksmörgås" /\
  sanitizePath "Räk \/ smörgås" = "Räk smörgås" /\
  sanitizePath ("هذا هو *" +:+ String "007"%char "?اسم الملف")
    = "هذا هو اسم الملف" /\
  sanitizePath "../foo.txt" = ".. foo.txt".
Proof. vm_compute. repeat split. Qed.

(** [TestRequest], case by case. *)
Example TestRequest_cases :
  Request defaultCfg disk device1 "default" "foo" 6 0
    = inr [102; 111; 111; 98; 97; 114] /\
  rejected (Request defaultCfg disk device2 "default" "foo" 6 0) /\
  rejected (Request defaultCfg disk device1 "default" "nonexistent" 6 0) /\
  rejected (Request defaultCfg disk device1 "default" "../walk.go" 6 0) /\
  rejected (Request defaultCfg disk device1 "default" "foo" (-4) 0) /\
  rejected (Request defaultCfg disk device1 "default" "foo" 42 0).
Proof. vm_compute. repeat split. Qed.

End ModelTests.

(** * The claims on the test data *)

Section OnTestData.
Import protocol config syncthing model testdata.

Lemma rejected_transition_witness :
  let w := Subscribe (Wrap "config.xml" defaultCfg) rejecting in
  invoke cleanFails w (mSetGUI (mkGUI true false))
  = Returns (w, Some "invalid") /\
  exists e evs,
    invoke cleanOk w (mRemoveDevice device2)
    = Returns (add_calls w evs, Some e) /\
    Forall not_Committed evs.
Proof.
  cbv zeta. split.
  - apply (rejected_transition_leaves_store cleanFails
             (Subscribe (Wrap "config.xml" defaultCfg) rejecting)
             (mSetGUI (mkGUI true false))
             (set_cfg_GUI defaultCfg (mkGUI true false)) eq_refl).
    reflexivity.
  - destruct (rejected_transition_leaves_store cleanOk
                (Subscribe (Wrap "config.xml" defaultCfg) rejecting)
                (mRemoveDevice device2)
                (set_cfg_Devices defaultCfg [device myID; device device1])
                eq_refl) as [_ H].
    destruct (H _ rejecting "rejected" eq_refl
                (list_elem_of_here _ _) eq_refl)
      as (s' & e & evs & _ & _ & Hi & _ & Hq).
    exists e, evs. split; assumption.
Defined.

Lemma restart_flag_witness :
  let w := Subscribe (Wrap "config.xml" defaultCfg) unhandled in
  (exists w',
     invoke cleanOk w (mSetGUI (mkGUI true false)) = Returns (w', None) /\
     cfg w' = set_cfg_GUI defaultCfg (mkGUI true false) /\
     RequiresRestart w' = true) /\
  (exists w'',
     invokeAll cleanOk (setRequiresRestart w)
       [mUnsubscribe unhandled; mSetGUI (mkGUI false false);
        mAddOrUpdatePendingDevice 1572000000 device1' "laptop" "tcp://10.0.0.7"]
     = Returns w'' /\ RequiresRestart w'' = true).
Proof.
  cbv zeta. split.
  - apply (proj1 (restart_flag_latches cleanOk
                    (Subscribe (Wrap "config.xml" defaultCfg) unhandled))
             (mSetGUI (mkGUI true false))
             (set_cfg_GUI defaultCfg (mkGUI true false))
             (set_cfg_GUI defaultCfg (mkGUI true false))
             unhandled eq_refl eq_refl).
    + intros c Hc. apply list_elem_of_singleton in Hc as ->. reflexivity.
    + apply list_elem_of_here.
    + reflexivity.
  - eexists. split; [reflexivity|].
    apply (proj2 (restart_flag_latches cleanOk
                    (setRequiresRestart
                       (Subscribe (Wrap "config.xml" defaultCfg) unhandled)))
             [mUnsubscribe unhandled; mSetGUI (mkGUI false false);
              mAddOrUpdatePendingDevice 1572000000 device1' "laptop"
                "tcp://10.0.0.7"]
             _ eq_refl eq_refl).
Defined.

Lemma AddOrUpdatePendingFolder_witness :
  (exists msg,
     AddOrUpdatePendingFolder (Wrap "config.xml" defaultCfg) 1572000000
       "photos" "Photos" device1' = Panics msg) /\
  (exists w',
     AddOrUpdatePendingFolder (Wrap "config.xml" defaultCfg) 1572000000
       "photos" "Photos" device1 = Returns w').
Proof.
  destruct (AddOrUpdatePendingFolder_panics_or_updates
              (Wrap "config.xml" defaultCfg) 1572000000 "photos" "Photos"
              device1') as [H _].
  destruct (AddOrUpdatePendingFolder_panics_or_updates
              (Wrap "config.xml" defaultCfg) 1572000000 "photos" "Photos"
              device1) as [_ H'].
  split.
  - apply H. simpl. intros Hin.
    repeat (apply elem_of_cons in Hin as [Hin|Hin]; [discriminate Hin|]).
    inversion Hin.
  - destruct H' as (pre & d & post & pfs' & _ & _ & _ & Hr & _).
    + simpl. right. left.
    + eexists. exact Hr.
Defined.

Lemma Stop_first_call_wins_witness :
  let a := New (Wrap "config.xml" defaultCfg) appOptions in
  exists a1,
    doStops a [callStop ExitRestart; callStop ExitSuccess;
               callStopWithErr ExitError (Some "late")]
    = Returns (a1, [ExitRestart; ExitRestart; ExitRestart]) /\
    exitStatus a1 = ExitRestart /\ err a1 = None /\ stop a1 = true.
Proof.
  cbv zeta.
  destruct (Stop_first_call_wins
              (New (Wrap "config.xml" defaultCfg) appOptions)
              (callStop ExitRestart)
              [callStop ExitSuccess; callStopWithErr ExitError (Some "late")])
    as (a1 & _ & Hst & Herr & Hstop & _ & Hall).
  - repeat split.
  - exists a1. repeat split; assumption.
Defined.

Lemma rangeKeys_keys (m : gmap DeviceID DeviceConfiguration) :
  rangeKeys m ≡ₚ (map_to_list m).*1.
Proof. reflexivity. Qed.

Lemma checkShortIDs_conflict_witness :
  let a := New (Wrap "config.xml" collidingCfg) appOptions in
  Short device1 = Short device1' /\
  exists e a' evs,
    startup cleanOk rangeKeys rangeValues (fun _ => "ID") environment0 a
    = (a', Err e) /\
    effects a' = evs /\ Forall quiet evs.
Proof.
  cbv zeta.
  destruct (checkShortIDs_conflict_aborts_startup cleanOk rangeKeys rangeValues
              (fun _ => "ID") environment0 rangeKeys_keys
              (New (Wrap "config.xml" collidingCfg) appOptions))
    as (Hiff & Hdom & Hshort & Hstart).
  split; [reflexivity|].
  destruct (proj2 Hiff) as [e He].
  - exists device1, device1'.
    rewrite !(Hdom eq_refl). simpl.
    repeat split; [left | right; left | discriminate].
  - destruct (proj1 (Hstart e He)) as (a' & evs & Hs & Hev & Hq).
    exists e, a', evs. repeat split; assumption.
Defined.

Lemma disk_wf : wf_Disk disk.
Proof.
  intros f n data. unfold readFile, disk.
  destruct (decide (f = "default")) as [->|Hf].
  - rewrite lookup_singleton_eq. simpl.
    destruct (decide (n = "foo")) as [->|Hn]; [reflexivity|].
    rewrite lookup_singleton_ne by congruence. discriminate.
  - rewrite lookup_singleton_ne by congruence. discriminate.
Qed.

(** [TestRequest]: the existing, shared file is read; the request for it
    with a size beyond the file is rejected. *)
Lemma Request_validates_witness :
  Request defaultCfg disk device1 "default" "foo" 6 0
  = inr [102; 111; 111; 98; 97; 114] /\
  rejected (Request defaultCfg disk device1 "default" "foo" 42 0).
Proof.
  split.
  - destruct (Request_validates defaultCfg disk device1 "default" "foo" 6 0)
      as (_ & _ & _ & _ & _ & _ & H).
    apply (H foo disk_wf eq_refl eq_refl); simpl; lia.
  - destruct (Request_validates defaultCfg disk device1 "default" "foo" 42 0)
      as (_ & _ & _ & _ & _ & H & _).
    apply (H foo eq_refl). simpl. lia.
Defined.

(** [TestModTimeWindow] *)
Lemma ModTimeWindow_witness :
  let st := mkStat (1572000000 * second) 7 420 [foo] in
  let fi :=
    mkFileInfo "foo" 7 420 (1572000000 * second) [(Short myID, 1)] false [foo] in
  let files : gmap string Stat := {[ "foo" := st ]} in
  let local : gmap string FileInfo := {[ "foo" := fi ]} in
  let later n := Chtimes files "foo" (1572000000 * second + n * second) in
  ScanFolder (Short myID) 2 (later 1) local !! "foo" = Some fi /\
  fi_Version <$> (ScanFolder (Short myID) 2 (later 2) local !! "foo")
  = Some [(Short myID, 2)].
Proof.
  cbv zeta.
  destruct (ModTimeWindow_two_seconds (Short myID)
              {[ "foo" := mkStat (1572000000 * second) 7 420 [foo] ]}
              {[ "foo" := mkFileInfo "foo" 7 420 (1572000000 * second)
                            [(Short myID, 1)] false [foo] ]}
              "foo" (mkStat (1572000000 * second) 7 420 [foo])
              (mkFileInfo "foo" 7 420 (1572000000 * second)
                 [(Short myID, 1)] false [foo]))
    as (H1 & H2 & _).
  - apply lookup_singleton_eq.
  - apply lookup_singleton_eq.
  - repeat split.
  - split; [exact H1 | exact H2].
Defined.

(** [TestIntroducer], third case: the introducer lists nothing any more. *)
Lemma introducer_removal_witness :
  let c' :=
    model.ClusterConfig noSanitize ∅ myID introducedCfg device1
      (mkClusterConfig []) in
  (forall F, F ∈ cfg_Folders c' -> fld_ID F = "folder1" ->
     SharedWith F device2 = false) /\
  lookupDevice c' device2 = None.
Proof.
  cbv zeta.
  destruct (introducer_removal noSanitize ∅ myID device1 device2 "folder1"
              ltac:(discriminate) ltac:(discriminate)
              introducedCfg (introducer device1) (mkClusterConfig []))
    as [HF HD].
  - reflexivity.
  - reflexivity.
  - reflexivity.
  - split.
    + intros F fd HFin Hid Hfd HfdD. simpl in HFin.
      repeat (apply elem_of_cons in HFin as [->|HFin]);
        try (inversion HFin); simpl in Hfd;
        repeat (apply elem_of_cons in Hfd as [->|Hfd]);
        try (inversion Hfd); try reflexivity; discriminate HfdD.
    + intros d Hd HdD. simpl in Hd.
      repeat (apply elem_of_cons in Hd as [->|Hd]);
        try (inversion Hd); try reflexivity; discriminate HdD.
  - reflexivity.
  - split; [exact HF | apply HD; reflexivity].
Defined.

(** [TestAutoAcceptPrefersLabel] and [TestAutoAcceptFallsBackToID]; then
    two unknown folders of one label in one ClusterConfig, of which the
    second finds the directory of the first; then
    [TestAutoAcceptNameConflict]. *)
Lemma autoaccept_witness :
  let cm := mkClusterConfig [mkPFolder "id" "label" []] in
  let two :=
    mkClusterConfig [mkPFolder "id1" "photos" []; mkPFolder "id2" "photos" []] in
  (exists fcfg,
     lookupFolder
       (model.ClusterConfig sanitizePath ∅ myID defaultAutoAcceptCfg device1 cm)
       "id" = Some fcfg /\
     SharedWith fcfg device1 = true /\ fld_Path fcfg = "label") /\
  (exists fcfg,
     lookupFolder
       (model.ClusterConfig sanitizePath {["label"]} myID defaultAutoAcceptCfg
          device1 cm)
       "id" = Some fcfg /\
     SharedWith fcfg device1 = true /\ fld_Path fcfg = "id") /\
  (exists fcfg,
     lookupFolder
       (model.ClusterConfig sanitizePath ∅ myID defaultAutoAcceptCfg device1
          two)
       "id2" = Some fcfg /\
     SharedWith fcfg device1 = true /\ fld_Path fcfg = "id2") /\
  lookupFolder
    (model.ClusterConfig sanitizePath {["label"; "id"]} myID
       defaultAutoAcceptCfg device1 cm)
    "id" = None.
Proof.
  cbv zeta. split; [|split; [|split]].
  - destruct (autoaccept_prefers_label_then_id sanitizePath ∅ myID device1
                "id" ltac:(discriminate) defaultAutoAcceptCfg
                (autoAccepting device1)
                (mkClusterConfig [mkPFolder "id" "label" []]) [] []
                (mkPFolder "id" "label" [])
                eq_refl eq_refl eq_refl eq_refl eq_refl (not_elem_of_nil _))
      as (Hlabel & _).
    destruct Hlabel as (fcfg & Hl & Hs & Hp);
      [apply (bool_decide_unpack _); vm_compute; exact I|].
    exists fcfg. split; [exact Hl|]. split; [exact Hs|].
    rewrite Hp. reflexivity.
  - destruct (autoaccept_prefers_label_then_id sanitizePath {["label"]} myID
                device1 "id" ltac:(discriminate) defaultAutoAcceptCfg
                (autoAccepting device1)
                (mkClusterConfig [mkPFolder "id" "label" []]) [] []
                (mkPFolder "id" "label" [])
                eq_refl eq_refl eq_refl eq_refl eq_refl (not_elem_of_nil _))
      as (_ & Hid & _).
    destruct Hid as (fcfg & Hl & Hs & Hp).
    + apply (bool_decide_unpack _). vm_compute. exact I.
    + apply (bool_decide_unpack _). vm_compute. exact I.
    + exists fcfg. split; [exact Hl|]. split; [exact Hs|].
      rewrite Hp. reflexivity.
  - destruct (autoaccept_prefers_label_then_id sanitizePath ∅ myID device1
                "id2" ltac:(discriminate) defaultAutoAcceptCfg
                (autoAccepting device1)
                (mkClusterConfig
                   [mkPFolder "id1" "photos" []; mkPFolder "id2" "photos" []])
                [mkPFolder "id1" "photos" []] []
                (mkPFolder "id2" "photos" [])
                eq_refl eq_refl eq_refl eq_refl eq_refl)
      as (_ & Hid & _).
    + intros Hin. apply list_elem_of_singleton in Hin. discriminate Hin.
    + destruct Hid as (fcfg & Hl & Hs & Hp).
      * apply (bool_decide_unpack _). vm_compute. exact I.
      * apply (bool_decide_unpack _). vm_compute. exact I.
      * exists fcfg. split; [exact Hl|]. split; [exact Hs|].
        rewrite Hp. reflexivity.
  - destruct (autoaccept_prefers_label_then_id sanitizePath {["label"; "id"]}
                myID device1 "id" ltac:(discriminate) defaultAutoAcceptCfg
                (autoAccepting device1)
                (mkClusterConfig [mkPFolder "id" "label" []]) [] []
                (mkPFolder "id" "label" [])
                eq_refl eq_refl eq_refl eq_refl eq_refl (not_elem_of_nil _))
      as (_ & _ & Hnone & _).
    apply Hnone. intros post1 f post2 Hsplit _.
    destruct post1 as [|x post1].
    + injection Hsplit as <- _. cbv zeta.
      split; apply (bool_decide_unpack _); vm_compute; exact I.
    + injection Hsplit as _ Hnil. destruct post1; discriminate Hnil.
Defined.

(** Three cases in which the claim as written does not hold.
    [TestAutoAcceptNameConflict]: AutoAcceptFolders is set for the peer, the
    folder ID is unknown locally and an entry named as the label exists; an
    entry named as the ID exists too, and no folder is created.  A label
    that is not a path name as it is, the last case of [TestSanitizePath]:
    the directory is named by what [sanitizePath] makes of the label, not by
    the label.  A peer with the all-zero device ID that is an introducer as
    well: the folder is created, and the removal rule of the introducer
    takes the peer out of it again, being the introducer of every device
    that nobody introduced. *)
Lemma autoaccept_claim_fails :
  let taken : gset string := {["label"; "id"]} in
  let c1 :=
    model.ClusterConfig sanitizePath taken myID defaultAutoAcceptCfg device1
      (mkClusterConfig [mkPFolder "id" "label" []]) in
  let c2 :=
    model.ClusterConfig sanitizePath ∅ myID defaultAutoAcceptCfg device1
      (mkClusterConfig [mkPFolder "id" "../foo.txt" []]) in
  let c0 := configuration [device myID; zeroIntroducer] [] in
  let c3 :=
    model.ClusterConfig sanitizePath ∅ myID c0 EmptyDeviceID
      (mkClusterConfig [mkPFolder "id" "label" []]) in
  (lookupDevice defaultAutoAcceptCfg device1 = Some (autoAccepting device1) /\
   dev_AutoAcceptFolders (autoAccepting device1) = true /\
   lookupFolder defaultAutoAcceptCfg "id" = None /\
   "label" ∈ taken /\
   lookupFolder c1 "id" = None /\
   cfg_Folders c1 = []) /\
  (sanitizePath "../foo.txt" = ".. foo.txt" /\
   (fld_Path <$> lookupFolder c2 "id") = Some ".. foo.txt") /\
  (lookupDevice c0 EmptyDeviceID = Some zeroIntroducer /\
   dev_AutoAcceptFolders zeroIntroducer = true /\
   lookupFolder c0 "id" = None /\
   (fld_Path <$> lookupFolder c3 "id") = Some "label" /\
   (fld_Devices <$> lookupFolder c3 "id") = Some []).
Proof.
  cbv zeta. split; [|split].
  - split; [reflexivity|]. split; [reflexivity|]. split; [reflexivity|].
    split; [|split].
    + apply elem_of_union. left. apply elem_of_singleton. reflexivity.
    + vm_compute. reflexivity.
    + vm_compute. reflexivity.
  - split; vm_compute; reflexivity.
  - repeat split; vm_compute; reflexivity.
Qed.

End OnTestData.
